(** * ESP-Signer: the TCP client wrapper [GAuth_TCP_Client] and the signer's
    retry state

    A shallow embedding of [src/client/GAuth_TCP_Client.h] (class
    [GAuth_TCP_Client]) and of the field initialisers of class [ESP_Signer].

    The wrapper sits between the token code and an SSL client object
    ([WiFiClientSecure], or a user supplied [Client] when the library is
    built with [ESP_SIGNER_ENABLE_EXTERNAL_CLIENT]).  The SSL client, the
    [MB_FS] file system helper and the WiFi / Ethernet globals are
    collaborators whose code is not part of the header: they are taken as
    interfaces (type classes below) and every statement about the wrapper
    holds for all their implementations.

    Conventions.
    - The targets (ESP32, ESP8266, RP2040) are 32-bit: [int] is a 32-bit
      two's complement integer, [size_t] and [uint32_t] are 32-bit unsigned.
      Integers are [Z]; every implicit conversion of the C++ code is written
      out with [to_int], [to_size_t], [to_uint8] or [to_bool].
    - A pointer that the code tests against null is an [option].
      Dereferencing a null pointer is the outcome [NullDeref].
    - The preprocessor conditionals of the header are the fields of [Build];
      every method branches on them where the header has [#if].
    - [flush] contains the only loop; it runs on fuel, and [OutOfFuel] is the
      outcome of a loop that did not finish within its fuel.

    The file has two parts: the model (interfaces, the wrapper's members and
    methods, a scripted client and file system to run it on), then the
    properties, each followed further down by runs on concrete objects. *)

From Stdlib Require Import ZArith List String Ascii Bool Lia.
From Stdlib.Strings Require Import Byte.
Import ListNotations.
Local Open Scope Z_scope.

(** ** Machine integers *)

Definition two_p32 : Z := 4294967296.
Definition two_p31 : Z := 2147483648.

(** Conversion to [size_t] / [uint32_t]. *)
Definition to_size_t (x : Z) : Z := x mod two_p32.

(** Conversion to [int]. *)
Definition to_int (x : Z) : Z := (x + two_p31) mod two_p32 - two_p31.

(** Conversion to [uint8_t]. *)
Definition to_uint8 (x : Z) : Z := x mod 256.

(** Conversion of an integer to [bool]: anything but zero is [true]. *)
Definition to_bool (x : Z) : bool := negb (x =? 0).

Definition is_size_t (x : Z) : Prop := 0 <= x < two_p32.
Definition is_int (x : Z) : Prop := - two_p31 <= x < two_p31.

(** ** C strings *)

(** The characters of a [const char *] up to its terminator: a [string]
    stands for the memory the pointer points to, and the C string in it
    stops at the first NUL character (or at the end of the [string]). *)
Fixpoint c_str (s : string) : string :=
  match s with
  | EmptyString => EmptyString
  | String c r => if Ascii.eqb c Ascii.zero then EmptyString else String c (c_str r)
  end.

Definition strlen (s : string) : Z := Z.of_nat (String.length (c_str s)).

(** [MB_String::prepend] of one character. *)
Definition MB_String_prepend (c : ascii) (s : string) : string := String c s.

(** ** Enumerations of the library headers *)

Inductive esp_signer_cert_type : Type :=
| esp_signer_cert_type_undefined
| esp_signer_cert_type_none
| esp_signer_cert_type_data
| esp_signer_cert_type_file.

Definition cert_type_eqb (a b : esp_signer_cert_type) : bool :=
  match a, b with
  | esp_signer_cert_type_undefined, esp_signer_cert_type_undefined
  | esp_signer_cert_type_none, esp_signer_cert_type_none
  | esp_signer_cert_type_data, esp_signer_cert_type_data
  | esp_signer_cert_type_file, esp_signer_cert_type_file => true
  | _, _ => false
  end.

Inductive mb_fs_mem_storage_type : Type :=
| mb_fs_mem_storage_type_undefined
| mb_fs_mem_storage_type_flash
| mb_fs_mem_storage_type_sd.

Inductive esp_signer_tcp_client_type : Type :=
| esp_signer_tcp_client_type_internal
| esp_signer_tcp_client_type_external.

(** ** Build configuration: the macros the header tests *)

Inductive Target : Type := ESP32 | ESP8266 | PICO_RP2040 | OTHER_TARGET.

Record Build : Type := {
  ESP_SIGNER_ENABLE_EXTERNAL_CLIENT : bool;
  target : Target;
  (** [__has_include(<esp_idf_version.h>)] and
      [ESP_IDF_VERSION >= ESP_IDF_VERSION_VAL(3, 3, 0)] *)
  ESP_IDF_3_3_0 : bool;
  MBFS_FLASH_FS : bool;
  MBFS_ESP32_SDFAT_ENABLED : bool;
  MBFS_SD_FS : bool;
  ESP8266_CORE_SDK_V3_X_X : bool;
  INC_ENC28J60_LWIP : bool;
  INC_W5100_LWIP : bool;
  INC_W5500_LWIP : bool
}.

(** [defined(ESP8266) || defined(PICO_RP2040)] *)
Definition bearssl_target (t : Target) : bool :=
  match t with ESP8266 | PICO_RP2040 => true | _ => false end.

(** ** Constants of headers that are not part of the sources

    [ESP_Signer_Error.h] defines the error codes and the Arduino cores define
    [WL_CONNECTED]; their values are parameters of the development. *)

Record Constants : Type := {
  ESP_SIGNER_ERROR_TCP_ERROR_CONNECTION_REFUSED : Z;
  ESP_SIGNER_ERROR_TCP_ERROR_SEND_REQUEST_FAILED : Z;
  ESP_SIGNER_ERROR_TCP_ERROR_NOT_CONNECTED : Z;
  ESP_SIGNER_ERROR_TCP_RESPONSE_READ_FAILED : Z;
  ESP_SIGNER_ERROR_HTTP_CODE_OK : Z;
  WL_CONNECTED : Z
}.

(** ** Collaborators *)

(** A BearSSL trust anchor list: [new X509List(pem)] or
    [new X509List(der, len)]. *)
Inductive X509List : Type :=
| X509List_pem (pem : string)
| X509List_der (der : list byte) (len : Z).

(** The SSL client behind the wrapper.  Every method may change the client
    (its socket, its buffers), so each one returns the client after the
    call. *)
Class Client (C : Type) : Type := {
  (** [new WiFiClientSecure()] *)
  cl_new : C;
  (** [uint8_t connected()] *)
  cl_connected : C -> Z * C;
  (** [int connect(const char *host, uint16_t port)] *)
  cl_connect : string -> Z -> C -> Z * C;
  (** [int connect(IPAddress ip, uint16_t port)] *)
  cl_connect_ip : Z -> Z -> C -> Z * C;
  (** [setTimeout(t)]; its result is used on ESP32 only *)
  cl_setTimeout : Z -> C -> Z * C;
  cl_stop : C -> C;
  (** [size_t write(const uint8_t *buf, size_t size)] *)
  cl_write : list byte -> Z -> C -> Z * C;
  (** [int available()] *)
  cl_available : C -> Z * C;
  (** [int read()] *)
  cl_read : C -> Z * C;
  (** [int peek()] *)
  cl_peek : C -> Z * C;
  (** [size_t readBytes(uint8_t *buf, size_t len)]: the count, and the
      buffer after the call *)
  cl_readBytes : list byte -> Z -> C -> (Z * list byte) * C;
  (** [setCACert] of a C string, [None] for a null pointer *)
  cl_setCACert : option string -> C -> C;
  cl_setTrustAnchors : X509List -> C -> C;
  (** [loadCACert(Stream &, size_t)] *)
  cl_loadCACert : list byte -> Z -> C -> C;
  cl_setInsecure : C -> C;
  cl_setNoDelay : bool -> C -> C;
  cl_setBufferSizes : Z -> Z -> C -> C
}.

(** The file system helper [MB_FS] and [MemoryHelper], which allocates
    through it. *)
Class MB_FS (F : Type) : Type := {
  (** [int open(filename, storageType, mb_fs_open_mode_read)]: the size of
      the file, negative on failure *)
  fs_open : string -> mb_fs_mem_storage_type -> F -> Z * F;
  fs_close : mb_fs_mem_storage_type -> F -> F;
  (** [int available(storageType)] *)
  fs_available : mb_fs_mem_storage_type -> F -> Z * F;
  (** [read(storageType, buf, len)]: the buffer after the call *)
  fs_read : mb_fs_mem_storage_type -> list byte -> Z -> F -> list byte * F;
  (** [getFlashFile()], [getSDFile()]: the open file as a stream *)
  fs_getFlashFile : F -> list byte;
  fs_getSDFile : F -> list byte;
  (** [MemoryHelper::createBuffer<T>(mbfs, len)]: the fresh buffer *)
  fs_createBuffer : Z -> F -> list byte
}.

(** The SPI Ethernet module of the configuration: each lwIP device is a
    pointer, [Some s] when it is attached, [s] being what its [status()]
    returns. *)
Record SPI_ETH_Module : Type := {
  enc28j60 : option Z;
  w5100 : option Z;
  w5500 : option Z
}.

Record esp_signer_gauth_cfg_t : Type := {
  spi_ethernet_module : SPI_ETH_Module
}.

(** What the wrapper reads of the [WiFi] and [ETH] globals. *)
Record Radio : Type := {
  WiFi_status : Z;
  (** [ETH.localIP().toString()] *)
  ETH_localIP : string
}.

(** The user's callbacks are pointers to functions without arguments or
    result.  A status callback is expected to
    report through [setNetworkStatus]: it is modelled by the value it passes
    there, if it calls it. *)
Definition ESP_Signer_NetworkStatusRequestCallback : Type := Radio -> option bool.
Definition ESP_Signer_NetworkConnectionRequestCallback : Type := Radio -> Radio.

(** ** A scripted SSL client and a small file system

    Two implementations of the interfaces, used to run the wrapper on
    concrete inputs.  The client keeps a log of the calls that configure it,
    so that what the wrapper did to it can be read off the state. *)

Module Mock.

Inductive Call : Type :=
| Dial (h : string) (p : Z)
| DialIP (address : Z) (p : Z)
| SetTimeout (t : Z)
| Stop
| SetCACert (pem : option string)
| SetTrustAnchors (l : X509List)
| LoadCACert (stream : list byte) (size : Z)
| SetInsecure
| SetNoDelay (b : bool)
| SetBufferSizes (rx tx : Z).

Record client : Type := mk_client {
  (** the socket is connected *)
  up : bool;
  (** whether the server accepts a connection *)
  reachable : bool;
  (** bytes received and not yet read *)
  rx : list byte;
  (** bytes sent so far *)
  tx : list byte;
  (** how many bytes one [write] takes at most *)
  room : Z;
  (** the configuring calls, latest first *)
  log : list Call
}.

Definition logged (c : Call) (s : client) : client :=
  mk_client (up s) (reachable s) (rx s) (tx s) (room s) (c :: log s).

Definition dial (c : Call) (s : client) : Z * client :=
  if reachable s
  then (1, mk_client true (reachable s) (rx s) (tx s) (room s) (c :: log s))
  else (0, logged c s).

Definition take (n : Z) (l : list byte) : list byte := firstn (Z.to_nat n) l.
Definition drop (n : Z) (l : list byte) : list byte := skipn (Z.to_nat n) l.
Definition len (l : list byte) : Z := Z.of_nat (List.length l).

Definition fresh : client := mk_client false true [] [] two_p31 [].

#[global] Instance Client_mock : Client client := {|
  cl_new := fresh;
  cl_connected := fun s => (if up s then 1 else 0, s);
  cl_connect := fun h p s => dial (Dial h p) s;
  cl_connect_ip := fun a p s => dial (DialIP a p) s;
  cl_setTimeout := fun t s => (0, logged (SetTimeout t) s);
  cl_stop := fun s => mk_client false (reachable s) [] (tx s) (room s) (Stop :: log s);
  cl_write := fun data size s =>
    let sent := take (Z.min size (room s)) data in
    (len sent, mk_client (up s) (reachable s) (rx s) (tx s ++ sent) (room s) (log s));
  cl_available := fun s => (len (rx s), s);
  cl_read := fun s =>
    match rx s with
    | [] => (-1, s)
    | b :: r => (Z.of_N (Byte.to_N b),
                 mk_client (up s) (reachable s) r (tx s) (room s) (log s))
    end;
  cl_peek := fun s =>
    match rx s with
    | [] => (-1, s)
    | b :: _ => (Z.of_N (Byte.to_N b), s)
    end;
  cl_readBytes := fun buf n s =>
    let got := take n (rx s) in
    ((len got, got ++ drop (len got) buf),
     mk_client (up s) (reachable s) (drop n (rx s)) (tx s) (room s) (log s));
  cl_setCACert := fun pem s => logged (SetCACert pem) s;
  cl_setTrustAnchors := fun l s => logged (SetTrustAnchors l) s;
  cl_loadCACert := fun stream size s => logged (LoadCACert stream size) s;
  cl_setInsecure := fun s => logged SetInsecure s;
  cl_setNoDelay := fun b s => logged (SetNoDelay b) s;
  cl_setBufferSizes := fun r t s => logged (SetBufferSizes r t) s
|}.

(** A file system: named files, the file that is open, and the number of
    calls it has served. *)
Record fs : Type := mk_fs {
  files : list (string * list byte);
  opened : option (list byte);
  calls : nat
}.

Fixpoint lookup (name : string) (l : list (string * list byte)) : option (list byte) :=
  match l with
  | [] => None
  | (n, content) :: r => if String.eqb n name then Some content else lookup name r
  end.

Definition remaining (f : fs) : list byte :=
  match opened f with Some content => content | None => [] end.

#[global] Instance MB_FS_mock : MB_FS fs := {|
  fs_open := fun name _ f =>
    match lookup name (files f) with
    | Some content => (len content, mk_fs (files f) (Some content) (S (calls f)))
    | None => (-1, mk_fs (files f) None (S (calls f)))
    end;
  fs_close := fun _ f => mk_fs (files f) None (S (calls f));
  fs_available := fun _ f => (len (remaining f), mk_fs (files f) (opened f) (S (calls f)));
  fs_read := fun _ buf n f =>
    let got := take n (remaining f) in
    (got ++ drop (len got) buf,
     mk_fs (files f) (Some (drop n (remaining f))) (S (calls f)));
  fs_getFlashFile := remaining;
  fs_getSDFile := remaining;
  fs_createBuffer := fun n _ => repeat x00 (Z.to_nat n)
|}.

End Mock.

(** ** The retry state of class [ESP_Signer]

    The scalar data members of the class that carry a default member
    initialiser, and the object those initialisers produce.  The two
    [unauthen_] members are the time of the last failed token request and
    the length of the pause that follows it, in milliseconds; the methods
    that use them are declared in the class and defined in another file. *)



(** ** The wrapper object *)

Section Wrapper.

Context {C F : Type} {ClientC : Client C} {FSF : MB_FS F}.
Variable B : Build.
Variable K : Constants.

(** The data members of [GAuth_TCP_Client], in the order of the header. *)
Record GAuth_TCP_Client : Type := mkTCP {
  (** the SSL client: [std::unique_ptr<WiFiClientSecure>], or a pointer to
      a [Client] in an external client build; [None] is the null pointer *)
  client : option C;
  esp_signer_network_connection_cb : option ESP_Signer_NetworkConnectionRequestCallback;
  esp_signer_network_status_cb : option ESP_Signer_NetworkStatusRequestCallback;
  esp_signer_networkStatus : bool;
  cert : option (list byte);
  certType : esp_signer_cert_type;
  host : string;
  port : Z;
  ip : Z;
  (** the pointer [response_code]: [None] is the null pointer, [Some v] a
      pointer to an [int] that holds [v] *)
  response_code : option Z;
  timeoutmSec : Z;
  config : option esp_signer_gauth_cfg_t;
  mbfs : option F;
  bsslRxSize : Z;
  bsslTxSize : Z;
  x509 : option X509List;
  eth : option SPI_ETH_Module;
  clockReady : bool;
  (** not a member: the [WiFi] and [ETH] globals the methods read *)
  radio : Radio
}.

(** Assignments to the members. *)
Definition set_client (v : option C) (t : GAuth_TCP_Client) : GAuth_TCP_Client :=
  mkTCP v (esp_signer_network_connection_cb t)
    (esp_signer_network_status_cb t) (esp_signer_networkStatus t) (cert t)
    (certType t) (host t) (port t) (ip t) (response_code t) (timeoutmSec t)
    (config t) (mbfs t) (bsslRxSize t) (bsslTxSize t) (x509 t) (eth t)
    (clockReady t) (radio t).

Definition set_esp_signer_network_connection_cb (v : option ESP_Signer_NetworkConnectionRequestCallback)
    (t : GAuth_TCP_Client) : GAuth_TCP_Client :=
  mkTCP (client t) v (esp_signer_network_status_cb t)
    (esp_signer_networkStatus t) (cert t) (certType t) (host t) (port t)
    (ip t) (response_code t) (timeoutmSec t) (config t) (mbfs t)
    (bsslRxSize t) (bsslTxSize t) (x509 t) (eth t) (clockReady t) (radio t).

Definition set_esp_signer_network_status_cb (v : option ESP_Signer_NetworkStatusRequestCallback)
    (t : GAuth_TCP_Client) : GAuth_TCP_Client :=
  mkTCP (client t) (esp_signer_network_connection_cb t) v
    (esp_signer_networkStatus t) (cert t) (certType t) (host t) (port t)
    (ip t) (response_code t) (timeoutmSec t) (config t) (mbfs t)
    (bsslRxSize t) (bsslTxSize t) (x509 t) (eth t) (clockReady t) (radio t).

Definition set_esp_signer_networkStatus (v : bool)
    (t : GAuth_TCP_Client) : GAuth_TCP_Client :=
  mkTCP (client t) (esp_signer_network_connection_cb t)
    (esp_signer_network_status_cb t) v (cert t) (certType t) (host t) (port t)
    (ip t) (response_code t) (timeoutmSec t) (config t) (mbfs t)
    (bsslRxSize t) (bsslTxSize t) (x509 t) (eth t) (clockReady t) (radio t).

Definition set_cert (v : option (list byte)) (t : GAuth_TCP_Client) : GAuth_TCP_Client :=
  mkTCP (client t) (esp_signer_network_connection_cb t)
    (esp_signer_network_status_cb t) (esp_signer_networkStatus t) v
    (certType t) (host t) (port t) (ip t) (response_code t) (timeoutmSec t)
    (config t) (mbfs t) (bsslRxSize t) (bsslTxSize t) (x509 t) (eth t)
    (clockReady t) (radio t).

Definition set_certType (v : esp_signer_cert_type)
    (t : GAuth_TCP_Client) : GAuth_TCP_Client :=
  mkTCP (client t) (esp_signer_network_connection_cb t)
    (esp_signer_network_status_cb t) (esp_signer_networkStatus t) (cert t) v
    (host t) (port t) (ip t) (response_code t) (timeoutmSec t) (config t)
    (mbfs t) (bsslRxSize t) (bsslTxSize t) (x509 t) (eth t) (clockReady t)
    (radio t).

Definition set_host (v : string) (t : GAuth_TCP_Client) : GAuth_TCP_Client :=
  mkTCP (client t) (esp_signer_network_connection_cb t)
    (esp_signer_network_status_cb t) (esp_signer_networkStatus t) (cert t)
    (certType t) v (port t) (ip t) (response_code t) (timeoutmSec t)
    (config t) (mbfs t) (bsslRxSize t) (bsslTxSize t) (x509 t) (eth t)
    (clockReady t) (radio t).

Definition set_port (v : Z) (t : GAuth_TCP_Client) : GAuth_TCP_Client :=
  mkTCP (client t) (esp_signer_network_connection_cb t)
    (esp_signer_network_status_cb t) (esp_signer_networkStatus t) (cert t)
    (certType t) (host t) v (ip t) (response_code t) (timeoutmSec t)
    (config t) (mbfs t) (bsslRxSize t) (bsslTxSize t) (x509 t) (eth t)
    (clockReady t) (radio t).

Definition set_ip (v : Z) (t : GAuth_TCP_Client) : GAuth_TCP_Client :=
  mkTCP (client t) (esp_signer_network_connection_cb t)
    (esp_signer_network_status_cb t) (esp_signer_networkStatus t) (cert t)
    (certType t) (host t) (port t) v (response_code t) (timeoutmSec t)
    (config t) (mbfs t) (bsslRxSize t) (bsslTxSize t) (x509 t) (eth t)
    (clockReady t) (radio t).

Definition set_response_code (v : option Z) (t : GAuth_TCP_Client) : GAuth_TCP_Client :=
  mkTCP (client t) (esp_signer_network_connection_cb t)
    (esp_signer_network_status_cb t) (esp_signer_networkStatus t) (cert t)
    (certType t) (host t) (port t) (ip t) v (timeoutmSec t) (config t)
    (mbfs t) (bsslRxSize t) (bsslTxSize t) (x509 t) (eth t) (clockReady t)
    (radio t).

Definition set_timeoutmSec (v : Z) (t : GAuth_TCP_Client) : GAuth_TCP_Client :=
  mkTCP (client t) (esp_signer_network_connection_cb t)
    (esp_signer_network_status_cb t) (esp_signer_networkStatus t) (cert t)
    (certType t) (host t) (port t) (ip t) (response_code t) v (config t)
    (mbfs t) (bsslRxSize t) (bsslTxSize t) (x509 t) (eth t) (clockReady t)
    (radio t).

Definition set_config (v : option esp_signer_gauth_cfg_t)
    (t : GAuth_TCP_Client) : GAuth_TCP_Client :=
  mkTCP (client t) (esp_signer_network_connection_cb t)
    (esp_signer_network_status_cb t) (esp_signer_networkStatus t) (cert t)
    (certType t) (host t) (port t) (ip t) (response_code t) (timeoutmSec t) v
    (mbfs t) (bsslRxSize t) (bsslTxSize t) (x509 t) (eth t) (clockReady t)
    (radio t).

Definition set_mbfs (v : option F) (t : GAuth_TCP_Client) : GAuth_TCP_Client :=
  mkTCP (client t) (esp_signer_network_connection_cb t)
    (esp_signer_network_status_cb t) (esp_signer_networkStatus t) (cert t)
    (certType t) (host t) (port t) (ip t) (response_code t) (timeoutmSec t)
    (config t) v (bsslRxSize t) (bsslTxSize t) (x509 t) (eth t) (clockReady t)
    (radio t).

Definition set_bsslRxSize (v : Z) (t : GAuth_TCP_Client) : GAuth_TCP_Client :=
  mkTCP (client t) (esp_signer_network_connection_cb t)
    (esp_signer_network_status_cb t) (esp_signer_networkStatus t) (cert t)
    (certType t) (host t) (port t) (ip t) (response_code t) (timeoutmSec t)
    (config t) (mbfs t) v (bsslTxSize t) (x509 t) (eth t) (clockReady t)
    (radio t).

Definition set_bsslTxSize (v : Z) (t : GAuth_TCP_Client) : GAuth_TCP_Client :=
  mkTCP (client t) (esp_signer_network_connection_cb t)
    (esp_signer_network_status_cb t) (esp_signer_networkStatus t) (cert t)
    (certType t) (host t) (port t) (ip t) (response_code t) (timeoutmSec t)
    (config t) (mbfs t) (bsslRxSize t) v (x509 t) (eth t) (clockReady t)
    (radio t).

Definition set_x509 (v : option X509List) (t : GAuth_TCP_Client) : GAuth_TCP_Client :=
  mkTCP (client t) (esp_signer_network_connection_cb t)
    (esp_signer_network_status_cb t) (esp_signer_networkStatus t) (cert t)
    (certType t) (host t) (port t) (ip t) (response_code t) (timeoutmSec t)
    (config t) (mbfs t) (bsslRxSize t) (bsslTxSize t) v (eth t) (clockReady t)
    (radio t).

Definition set_eth (v : option SPI_ETH_Module)
    (t : GAuth_TCP_Client) : GAuth_TCP_Client :=
  mkTCP (client t) (esp_signer_network_connection_cb t)
    (esp_signer_network_status_cb t) (esp_signer_networkStatus t) (cert t)
    (certType t) (host t) (port t) (ip t) (response_code t) (timeoutmSec t)
    (config t) (mbfs t) (bsslRxSize t) (bsslTxSize t) (x509 t) v
    (clockReady t) (radio t).

Definition set_clockReady (v : bool) (t : GAuth_TCP_Client) : GAuth_TCP_Client :=
  mkTCP (client t) (esp_signer_network_connection_cb t)
    (esp_signer_network_status_cb t) (esp_signer_networkStatus t) (cert t)
    (certType t) (host t) (port t) (ip t) (response_code t) (timeoutmSec t)
    (config t) (mbfs t) (bsslRxSize t) (bsslTxSize t) (x509 t) (eth t) v
    (radio t).

(** ** Outcomes and sequencing *)

(** The outcome of a call on the object [t]: a result and the object after
    the call, or undefined behaviour through a null pointer, or a loop that
    outran its fuel. *)
Inductive Res (A : Type) : Type :=
| Ok (a : A) (t : GAuth_TCP_Client)
| NullDeref
| OutOfFuel.

Arguments Ok {A} a t.
Arguments NullDeref {A}.
Arguments OutOfFuel {A}.

Definition M (A : Type) : Type := GAuth_TCP_Client -> Res A.

Definition ret {A : Type} (a : A) : M A := fun t => Ok a t.

Definition bind {A X : Type} (m : M A) (k : A -> M X) : M X :=
  fun t =>
    match m t with
    | Ok a t' => k a t'
    | NullDeref => NullDeref
    | OutOfFuel => OutOfFuel
    end.

Notation "x <- m ;; k" := (bind m (fun x => k))
  (at level 61, m at next level, right associativity).
Notation "m ;;; k" := (bind m (fun _ => k))
  (at level 61, right associativity).

Definition get : M GAuth_TCP_Client := fun t => Ok t t.

(** An assignment to a member. *)
Definition assign (f : GAuth_TCP_Client -> GAuth_TCP_Client) : M unit :=
  fun t => Ok tt (f t).

(** [client->method(...)] for a method with a result. *)
Definition via_client {A : Type} (method : C -> A * C) : M A :=
  fun t =>
    match client t with
    | None => NullDeref
    | Some c => let (a, c') := method c in Ok a (set_client (Some c') t)
    end.

(** [client->method(...)] for a method without a result. *)
Definition on_client (method : C -> C) : M unit :=
  via_client (fun c => (tt, method c)).

(** [mbfs->method(...)] *)
Definition via_mbfs {A : Type} (method : F -> A * F) : M A :=
  fun t =>
    match mbfs t with
    | None => NullDeref
    | Some f => let (a, f') := method f in Ok a (set_mbfs (Some f') t)
    end.

Definition on_mbfs (method : F -> F) : M unit :=
  via_mbfs (fun f => (tt, method f)).

(** A block that is compiled in only under a condition. *)
Definition when_ (b : bool) (m : M unit) : M unit := if b then m else ret tt.

Definition internal_client : bool := negb (ESP_SIGNER_ENABLE_EXTERNAL_CLIENT B).

(** ** Construction *)

(** The member initialisers and the constructor.  The BearSSL buffer sizes,
    [x509] and [eth] are members of the ESP8266 and RP2040 builds with the
    internal client only; elsewhere they are 0 and null here and no method
    reads them. *)
Definition new_GAuth_TCP_Client (r : Radio) : GAuth_TCP_Client :=
  {| client := if internal_client then Some cl_new else None;
     esp_signer_network_connection_cb := None;
     esp_signer_network_status_cb := None;
     esp_signer_networkStatus := false;
     cert := None;
     certType := esp_signer_cert_type_undefined;
     host := EmptyString;
     port := 0;
     ip := 0;
     response_code := None;
     timeoutmSec := 10000;
     config := None;
     mbfs := None;
     bsslRxSize := if internal_client then
                     match target B with
                     | ESP8266 => 512
                     | PICO_RP2040 => 16384
                     | _ => 0
                     end
                   else 0;
     bsslTxSize := if internal_client && bearssl_target (target B) then 512 else 0;
     x509 := None;
     eth := None;
     clockReady := false;
     radio := r |}.

(** ** Methods, in the order of the header *)

Definition setInsecure : M unit :=
  if internal_client then
    match target B with
    | ESP32 => when_ (ESP_IDF_3_3_0 B) (on_client cl_setInsecure)
    | ESP8266 | PICO_RP2040 => on_client cl_setInsecure
    | OTHER_TARGET => ret tt
    end
  else ret tt.

Definition setCACert (caCert : option string) : M unit :=
  if internal_client then
    when_ (bearssl_target (target B))
      (t <- get ;; on_client (cl_setBufferSizes (bsslRxSize t) (bsslTxSize t))) ;;;
    match caCert with
    | Some pem =>
        assign (set_certType esp_signer_cert_type_data) ;;;
        match target B with
        | ESP32 => on_client (cl_setCACert (Some pem))
        | ESP8266 | PICO_RP2040 =>
            assign (set_x509 (Some (X509List_pem pem))) ;;;
            on_client (cl_setTrustAnchors (X509List_pem pem))
        | OTHER_TARGET => ret tt
        end
    | None =>
        assign (set_certType esp_signer_cert_type_none) ;;;
        on_client cl_stop ;;;
        match target B with
        | ESP32 => on_client (cl_setCACert None)
        | ESP8266 | PICO_RP2040 => on_client (cl_setNoDelay true)
        | OTHER_TARGET => ret tt
        end ;;;
        setInsecure
    end
  else ret tt.

(** [MB_String filename = caCertFile], with a slash put in front of a name
    that does not start with one. *)
Definition cert_filename (caCertFile : string) : string :=
  match c_str caCertFile with
  | EmptyString => EmptyString
  | String c r =>
      if Ascii.eqb c "/"%char then String c r else MB_String_prepend "/"%char (String c r)
  end.

(** The buffer [buf] after [if (mbfs->available(storageType))
    mbfs->read(storageType, buf, len)]. *)
Definition read_if_available (storageType : mb_fs_mem_storage_type)
    (buf : list byte) (len : Z) : M (list byte) :=
  a <- via_mbfs (fs_available storageType) ;;
  if to_bool a then via_mbfs (fs_read storageType buf len) else ret buf.

(** The body of [if (len > -1)] in [setCertFile] on ESP32. *)
Definition install_cert_file_esp32 (storageType : mb_fs_mem_storage_type) (len : Z) : M unit :=
  match storageType with
  | mb_fs_mem_storage_type_flash =>
      when_ (MBFS_FLASH_FS B)
        (file <- via_mbfs (fun f => (fs_getFlashFile f, f)) ;;
         on_client (cl_loadCACert file len) ;;;
         assign (set_certType esp_signer_cert_type_file)) ;;;
      on_mbfs (fs_close storageType)
  | mb_fs_mem_storage_type_sd =>
      (if MBFS_ESP32_SDFAT_ENABLED B then
         (* the old buffer, if any, is freed *)
         fresh <- via_mbfs (fun f => (fs_createBuffer len f, f)) ;;
         assign (set_cert (Some fresh)) ;;;
         buf <- read_if_available storageType fresh len ;;
         assign (set_cert (Some buf)) ;;;
         on_client (cl_setCACert (Some (string_of_list_byte buf))) ;;;
         assign (set_certType esp_signer_cert_type_file)
       else if MBFS_SD_FS B then
         file <- via_mbfs (fun f => (fs_getSDFile f, f)) ;;
         on_client (cl_loadCACert file len) ;;;
         assign (set_certType esp_signer_cert_type_file)
       else ret tt) ;;;
      on_mbfs (fs_close storageType)
  | mb_fs_mem_storage_type_undefined => ret tt
  end.

(** The body of [if (len > -1)] in [setCertFile] on ESP8266 and RP2040. *)
Definition install_cert_file_bearssl (storageType : mb_fs_mem_storage_type) (len : Z) : M unit :=
  fresh <- via_mbfs (fun f => (fs_createBuffer len f, f)) ;;
  der <- read_if_available storageType fresh len ;;
  on_mbfs (fs_close storageType) ;;;
  on_client (cl_setTrustAnchors (X509List_der der len)) ;;;
  assign (set_certType esp_signer_cert_type_file).

(** [caCertFile] is [None] for a null pointer; [strlen] of it is then
    undefined behaviour, reached only when the clock is ready. *)
Definition setCertFile (caCertFile : option string)
    (storageType : mb_fs_mem_storage_type) : M bool :=
  when_ internal_client
    (when_ (bearssl_target (target B))
       (t <- get ;; on_client (cl_setBufferSizes (bsslRxSize t) (bsslTxSize t))) ;;;
     t <- get ;;
     if clockReady t then
       match caCertFile with
       | None => fun _ => NullDeref
       | Some name =>
           if 0 <? strlen name then
             len <- via_mbfs (fs_open (cert_filename name) storageType) ;;
             if -1 <? len then
               match target B with
               | ESP32 => install_cert_file_esp32 storageType len
               | ESP8266 | PICO_RP2040 => install_cert_file_bearssl storageType len
               | OTHER_TARGET => ret tt
               end
             else ret tt
           else ret tt
       end
     else ret tt) ;;;
  t <- get ;;
  ret (cert_type_eqb (certType t) esp_signer_cert_type_file).

(** The first attached lwIP device among those compiled in decides: the
    chain of [if (eth->dev) { ret = ...; goto ex; }] of [ethLinkUp]. *)
Definition first_device_status (e : SPI_ETH_Module) : option Z :=
  match (if INC_ENC28J60_LWIP B then enc28j60 e else None) with
  | Some s => Some s
  | None =>
      match (if INC_W5100_LWIP B then w5100 e else None) with
      | Some s => Some s
      | None => if INC_W5500_LWIP B then w5500 e else None
      end
  end.

Definition ethLinkUp : M bool :=
  if internal_client then
    match target B with
    | ESP32 =>
        t <- get ;;
        ret (negb (String.eqb (c_str (ETH_localIP (radio t))) "0.0.0.0"))
    | ESP8266 | PICO_RP2040 =>
        t <- get ;;
        match eth t, config t with
        | None, Some cfg => assign (set_eth (Some (spi_ethernet_module cfg)))
        | _, _ => ret tt
        end ;;;
        t <- get ;;
        match eth t with
        | None => ret false
        | Some e =>
            match target B, ESP8266_CORE_SDK_V3_X_X B with
            | ESP8266, true =>
                match first_device_status e with
                | Some s => ret (s =? WL_CONNECTED K)
                | None => ret false
                end
            | _, _ => ret false
            end
        end
    | OTHER_TARGET => ret false
    end
  else ret false.

Definition networkReady : M bool :=
  if internal_client then
    t <- get ;;
    if WiFi_status (radio t) =? WL_CONNECTED K then ret true else ethLinkUp
  else
    t <- get ;;
    match esp_signer_network_status_cb t with
    | Some cb =>
        match cb (radio t) with
        | Some status => assign (set_esp_signer_networkStatus status)
        | None => ret tt
        end
    | None => ret tt
    end ;;;
    t <- get ;;
    ret (esp_signer_networkStatus t).

Definition setTimeout (timeout : Z) : M Z :=
  assign (set_timeoutmSec timeout) ;;;
  if internal_client then
    match target B with
    | ESP32 => via_client (cl_setTimeout (timeout / 1000))
    | ESP8266 | PICO_RP2040 => via_client (cl_setTimeout timeout) ;;; ret 1
    | OTHER_TARGET => ret 1
    end
  else ret 1.

(** [response] is the pointer argument [response_code]. *)
Definition begin (h : string) (p : Z) (response : option Z) : M bool :=
  assign (set_host (c_str h)) ;;;
  assign (set_port p) ;;;
  assign (set_response_code response) ;;;
  ret true.

Definition connected : M Z :=
  t <- get ;;
  match client t with
  | None => ret 0
  | Some _ => via_client cl_connected
  end.

(** [operator bool] *)
Definition operator_bool : M bool :=
  c <- connected ;; ret (to_bool c).

Definition setError (code : Z) : M Z :=
  t <- get ;;
  match response_code t with
  | None => ret (-1000)
  | Some _ => assign (set_response_code (Some code)) ;;; ret code
  end.

Definition stop : M unit :=
  t <- get ;;
  match client t with
  | None => ret tt
  | Some _ => on_client cl_stop
  end.

(** [while (client->available() > 0) client->read();] on the client [c]. *)
Fixpoint flush_loop (fuel : nat) (c : C) : option C :=
  match fuel with
  | O => None
  | S fuel' =>
      let (n, c1) := cl_available c in
      if 0 <? n then flush_loop fuel' (snd (cl_read c1)) else Some c1
  end.

Definition flush (fuel : nat) : M unit :=
  fun t =>
    match client t with
    | None => Ok tt t
    | Some c =>
        match flush_loop fuel c with
        | Some c' => Ok tt (set_client (Some c') t)
        | None => OutOfFuel
        end
    end.

(** [bool connect()].  The result of [setError], an [int], is returned
    through the [bool] result type. *)
Definition connect (fuel : nat) : M bool :=
  c <- connected ;;
  if to_bool c then flush fuel ;;; ret true
  else
    t <- get ;;
    r <- (if 0 <? Z.of_nat (String.length (host t))
          then via_client (cl_connect (host t) (port t))
          else via_client (cl_connect_ip (ip t) (port t))) ;;
    if negb (to_bool r) then
      e <- setError (ESP_SIGNER_ERROR_TCP_ERROR_CONNECTION_REFUSED K) ;;
      ret (to_bool e)
    else
      t <- get ;;
      via_client (cl_setTimeout (timeoutmSec t)) ;;;
      c <- connected ;;
      ret (to_bool c).

Definition release : M unit :=
  when_ internal_client
    (t <- get ;;
     match client t with
     | None => ret tt
     | Some _ =>
         on_client cl_stop ;;;
         assign (set_client None) ;;;
         assign (set_host EmptyString) ;;;
         assign (set_cert None) ;;;
         assign (set_certType esp_signer_cert_type_undefined)
     end).

(** [return setError(code)] in a method whose result type is [size_t]. *)
Definition setError_size_t (code : Z) : M Z :=
  e <- setError code ;; ret (to_size_t e).

(** [size_t write(const uint8_t *data, size_t size)]; [data] is [None] for a
    null pointer, otherwise the bytes it points to. *)
Definition write (fuel : nat) (data : option (list byte)) (size : Z) : M Z :=
  t <- get ;;
  match data, client t with
  | Some bytes, Some _ =>
      if size =? 0 then
        setError_size_t (ESP_SIGNER_ERROR_TCP_ERROR_SEND_REQUEST_FAILED K)
      else
        ready <- networkReady ;;
        if negb ready then
          setError_size_t (ESP_SIGNER_ERROR_TCP_ERROR_NOT_CONNECTED K)
        else
          c <- via_client cl_connected ;;
          usable <- (if to_bool c then ret true else connect fuel) ;;
          if negb usable then
            setError_size_t (ESP_SIGNER_ERROR_TCP_ERROR_CONNECTION_REFUSED K)
          else
            res <- via_client (cl_write bytes size) ;;
            if negb (to_int res =? to_int size) then
              setError_size_t (ESP_SIGNER_ERROR_TCP_ERROR_SEND_REQUEST_FAILED K)
            else
              setError (ESP_SIGNER_ERROR_HTTP_CODE_OK K) ;;;
              ret size
  | _, _ => setError_size_t (ESP_SIGNER_ERROR_TCP_ERROR_SEND_REQUEST_FAILED K)
  end.

(** [size_t write(uint8_t v)] *)
Definition write_byte (fuel : nat) (v : byte) : M Z :=
  write fuel (Some [v]) 1.

(** [int send(const char *data, int len = 0)]: the length goes to [write] as
    a [size_t] and the result comes back as an [int]. *)
Definition send (fuel : nat) (data : option string) (len : Z) : M Z :=
  len' <- (if len =? 0 then
             match data with
             | None => fun _ => NullDeref
             | Some s => ret (to_int (strlen s))
             end
           else ret len) ;;
  r <- write fuel (option_map list_byte_of_string data) (to_size_t len') ;;
  ret (to_int r).

(** [int print(const char *data)] *)
Definition print (fuel : nat) (data : option string) : M Z :=
  send fuel data 0.

Definition available : M Z :=
  t <- get ;;
  match client t with
  | None => setError (ESP_SIGNER_ERROR_TCP_ERROR_CONNECTION_REFUSED K)
  | Some _ => via_client cl_available
  end.

Definition peek : M Z :=
  t <- get ;;
  match client t with
  | None => ret 0
  | Some _ => via_client cl_peek
  end.

(** [int read()] *)
Definition read : M Z :=
  t <- get ;;
  match client t with
  | None => setError (ESP_SIGNER_ERROR_TCP_ERROR_CONNECTION_REFUSED K)
  | Some _ =>
      r <- via_client cl_read ;;
      if r <? 0 then setError (ESP_SIGNER_ERROR_TCP_RESPONSE_READ_FAILED K)
      else ret r
  end.

(** [int readBytes(uint8_t *buf, int len)]: the result, and the buffer
    after the call. *)
Definition readBytes (buf : list byte) (len : Z) : M (Z * list byte) :=
  t <- get ;;
  match client t with
  | None =>
      e <- setError (ESP_SIGNER_ERROR_TCP_ERROR_CONNECTION_REFUSED K) ;;
      ret (e, buf)
  | Some _ =>
      got <- via_client (cl_readBytes buf (to_size_t len)) ;;
      let r := to_int (fst got) in
      if negb (r =? len) then
        e <- setError (ESP_SIGNER_ERROR_TCP_RESPONSE_READ_FAILED K) ;;
        ret (e, snd got)
      else
        setError (ESP_SIGNER_ERROR_HTTP_CODE_OK K) ;;;
        ret (r, snd got)
  end.

(** [int read(uint8_t *buf, size_t size)] *)
Definition read_buf (buf : list byte) (size : Z) : M (Z * list byte) :=
  readBytes buf (to_int size).

(** [int readBytes(char *buf, int len)]: the buffer is cast to bytes. *)
Definition readBytes_char (buf : list ascii) (len : Z) : M (Z * list ascii) :=
  r <- readBytes (map byte_of_ascii buf) len ;;
  ret (fst r, map ascii_of_byte (snd r)).

(** [int connect(IPAddress ip, uint16_t port)] *)
Definition connect_ip (fuel : nat) (address : Z) (p : Z) : M Z :=
  assign (set_ip address) ;;;
  assign (set_port p) ;;;
  b <- connect fuel ;;
  ret (if b then 1 else 0).

(** [int connect(const char *host, uint16_t port)] *)
Definition connect_host (fuel : nat) (h : string) (p : Z) : M Z :=
  assign (set_host (c_str h)) ;;;
  assign (set_port p) ;;;
  b <- connect fuel ;;
  ret (if b then 1 else 0).

Definition getCertType : M esp_signer_cert_type :=
  t <- get ;; ret (certType t).

Definition setConfig (cfg : option esp_signer_gauth_cfg_t) (fs : option F) : M unit :=
  assign (set_config cfg) ;;;
  assign (set_mbfs fs).

Definition setClockStatus (status : bool) : M unit :=
  assign (set_clockReady status).

(** [setClient], a method of the external client builds. *)
Definition setClient (c : option C)
    (networkConnectionCB : option ESP_Signer_NetworkConnectionRequestCallback)
    (networkStatusCB : option ESP_Signer_NetworkStatusRequestCallback) : M unit :=
  assign (set_client c) ;;;
  assign (set_esp_signer_network_connection_cb networkConnectionCB) ;;;
  assign (set_esp_signer_network_status_cb networkStatusCB).

Definition type : esp_signer_tcp_client_type :=
  if internal_client then esp_signer_tcp_client_type_internal
  else esp_signer_tcp_client_type_external.

Definition setNetworkStatus (status : bool) : M unit :=
  assign (set_esp_signer_networkStatus status).

Definition isInitialized : M bool :=
  if internal_client then ret true
  else
    t <- get ;;
    ret (match client t, esp_signer_network_status_cb t, esp_signer_network_connection_cb t with
         | Some _, Some _, Some _ => true
         | _, _, _ => false
         end).

(** ** More methods of the header *)

(** Conversion to [uint16_t]. *)
Definition to_uint16 (x : Z) : Z := x mod 65536.

(** [void setBufferSizes(int rx, int tx)].  The body is compiled under
    [defined(ESP_8266) || defined(PICO_RP2040)] (and only with the internal
    client): the first macro is written with an underscore here, unlike
    [ESP8266] in the rest of the header, so it is a parameter of its own.
    The members are [uint16_t]; the client gets the [int]s. *)
Definition setBufferSizes (ESP_8266 : bool) (rx tx : Z) : M unit :=
  when_ (internal_client &&
         (ESP_8266 || match target B with PICO_RP2040 => true | _ => false end))
    (assign (set_bsslRxSize (to_uint16 rx)) ;;;
     assign (set_bsslTxSize (to_uint16 tx)) ;;;
     t <- get ;;
     match client t with
     | Some _ => on_client (cl_setBufferSizes rx tx)
     | None => ret tt
     end).

(** The string of a carriage return and a line feed. *)
Definition crlf : string := String "013"%char (String "010"%char EmptyString).

(** [int println(const char *data)] *)
Definition println (fuel : nat) (data : option string) : M Z :=
  len <- send fuel data 0 ;;
  if len <? 0 then ret len
  else
    sz <- send fuel (Some crlf) 0 ;;
    if sz <? 0 then ret sz else ret (to_int (len + sz)).

(** The object after [release()] in a build with the internal client: the
    client, the host, the certificate buffer and the recorded type are
    reset, the other members stay. *)
Definition released (t : GAuth_TCP_Client) : GAuth_TCP_Client :=
  set_certType esp_signer_cert_type_undefined
    (set_cert None (set_host EmptyString (set_client None t))).

(** The buffer and the file system after [if (mbfs->available(storageType))
    mbfs->read(storageType, buf, len)] on the file system [f]. *)
Definition read_file (storageType : mb_fs_mem_storage_type)
    (buf : list byte) (len : Z) (f : F) : list byte * F :=
  let (a, f1) := fs_available storageType f in
  if to_bool a then fs_read storageType buf len f1 else (buf, f1).

(** The error codes that [write] reports are negative [int]s.  [send],
    [print] and [println] tell an error from a count by the sign. *)
Definition negative_codes : Prop :=
  forall code,
    In code [ESP_SIGNER_ERROR_TCP_ERROR_SEND_REQUEST_FAILED K;
             ESP_SIGNER_ERROR_TCP_ERROR_NOT_CONNECTED K;
             ESP_SIGNER_ERROR_TCP_ERROR_CONNECTION_REFUSED K] ->
    - two_p31 <= code < 0.

(** The values an error of [write] shows as, seen as [int]s. *)
Definition write_error (r : Z) : Prop :=
  r = -1000 \/
  r = ESP_SIGNER_ERROR_TCP_ERROR_SEND_REQUEST_FAILED K \/
  r = ESP_SIGNER_ERROR_TCP_ERROR_NOT_CONNECTED K \/
  r = ESP_SIGNER_ERROR_TCP_ERROR_CONNECTION_REFUSED K.

(** ** What [setError] reports and records

    Two readings of [setError] that the statements below use: the value a
    call returns and the object it leaves. *)

Definition reported (code : Z) (t : GAuth_TCP_Client) : Z :=
  match response_code t with
  | Some _ => code
  | None => -1000
  end.

Definition recorded (code : Z) (t : GAuth_TCP_Client) : GAuth_TCP_Client :=
  match response_code t with
  | Some _ => set_response_code (Some code) t
  | None => t
  end.

(** The client after [client->setBufferSizes(bsslRxSize, bsslTxSize)], the
    first statement of [setCACert] and [setCertFile] on ESP8266 and RP2040. *)
Definition resized (t : GAuth_TCP_Client) (c : C) : C :=
  if bearssl_target (target B)
  then cl_setBufferSizes (bsslRxSize t) (bsslTxSize t) c
  else c.

(** The call [host.length() ? client->connect(host.c_str(), port)
    : client->connect(ip, port)] of [connect]. *)
Definition dial (t : GAuth_TCP_Client) (c : C) : Z * C :=
  if 0 <? Z.of_nat (String.length (host t))
  then cl_connect (host t) (port t) c
  else cl_connect_ip (ip t) (port t) c.

(** The client after [setInsecure()]. *)
Definition made_insecure (c : C) : C :=
  match target B with
  | ESP32 => if ESP_IDF_3_3_0 B then cl_setInsecure c else c
  | ESP8266 | PICO_RP2040 => cl_setInsecure c
  | OTHER_TARGET => c
  end.

(** The client after the certificate [pem] was handed to it. *)
Definition with_anchor (pem : string) (c : C) : C :=
  match target B with
  | ESP32 => cl_setCACert (Some pem) c
  | ESP8266 | PICO_RP2040 => cl_setTrustAnchors (X509List_pem pem) c
  | OTHER_TARGET => c
  end.

(** The client after the null-certificate branch of [setCACert]. *)
Definition without_anchor (c : C) : C :=
  made_insecure
    match target B with
    | ESP32 => cl_setCACert None (cl_stop c)
    | ESP8266 | PICO_RP2040 => cl_setNoDelay true (cl_stop c)
    | OTHER_TARGET => cl_stop c
    end.

(** [setCertFile] has nothing to read: the clock was not marked ready, or
    the file name is empty. *)
Definition no_file_wanted (caCertFile : option string) (t : GAuth_TCP_Client) : Prop :=
  clockReady t = false \/ exists name, caCertFile = Some name /\ strlen name = 0.

End Wrapper.

Arguments GAuth_TCP_Client : clear implicits.
Arguments Ok {C F A} a t.
Arguments NullDeref {C F A}.
Arguments OutOfFuel {C F A}.

Notation "x <- m ;; k" := (bind m (fun x => k))
  (at level 61, m at next level, right associativity).
Notation "m ;;; k" := (bind m (fun _ => k))
  (at level 61, right associativity).

(** ** Builds, constants and objects for the concrete runs

    Three builds, sample values for the error codes, and objects on the
    scripted client and file system of [Mock].  The properties are proved
    for all values of the constants; the runs only need error codes that
    differ from -1000. *)

Definition esp32_build : Build :=
  {| ESP_SIGNER_ENABLE_EXTERNAL_CLIENT := false;
     target := ESP32;
     ESP_IDF_3_3_0 := true;
     MBFS_FLASH_FS := true;
     MBFS_ESP32_SDFAT_ENABLED := false;
     MBFS_SD_FS := true;
     ESP8266_CORE_SDK_V3_X_X := false;
     INC_ENC28J60_LWIP := false;
     INC_W5100_LWIP := false;
     INC_W5500_LWIP := false |}.

Definition esp8266_build : Build :=
  {| ESP_SIGNER_ENABLE_EXTERNAL_CLIENT := false;
     target := ESP8266;
     ESP_IDF_3_3_0 := false;
     MBFS_FLASH_FS := true;
     MBFS_ESP32_SDFAT_ENABLED := false;
     MBFS_SD_FS := true;
     ESP8266_CORE_SDK_V3_X_X := true;
     INC_ENC28J60_LWIP := false;
     INC_W5100_LWIP := false;
     INC_W5500_LWIP := true |}.

Definition external_build : Build :=
  {| ESP_SIGNER_ENABLE_EXTERNAL_CLIENT := true;
     target := ESP32;
     ESP_IDF_3_3_0 := true;
     MBFS_FLASH_FS := true;
     MBFS_ESP32_SDFAT_ENABLED := false;
     MBFS_SD_FS := true;
     ESP8266_CORE_SDK_V3_X_X := false;
     INC_ENC28J60_LWIP := false;
     INC_W5100_LWIP := false;
     INC_W5500_LWIP := false |}.

Definition sample_constants : Constants :=
  {| ESP_SIGNER_ERROR_TCP_ERROR_CONNECTION_REFUSED := -1;
     ESP_SIGNER_ERROR_TCP_ERROR_SEND_REQUEST_FAILED := -2;
     ESP_SIGNER_ERROR_TCP_ERROR_NOT_CONNECTED := -3;
     ESP_SIGNER_ERROR_TCP_RESPONSE_READ_FAILED := -4;
     ESP_SIGNER_ERROR_HTTP_CODE_OK := 200;
     WL_CONNECTED := 3 |}.

Definition wifi_up : Radio := {| WiFi_status := 3; ETH_localIP := "0.0.0.0" |}.

Definition TCP : Type := GAuth_TCP_Client Mock.client Mock.fs.

(** New objects: with the internal client, and without a client. *)
Definition new_esp32 : TCP := new_GAuth_TCP_Client esp32_build wifi_up.
Definition new_esp8266 : TCP := new_GAuth_TCP_Client esp8266_build wifi_up.
Definition new_external : TCP := new_GAuth_TCP_Client external_build wifi_up.

(** The object after [begin("oauth2.googleapis.com", 443, &code)], the
    [int code] holding 0. *)
Definition begun (t : TCP) : TCP :=
  set_response_code (Some 0) (set_port 443 (set_host "oauth2.googleapis.com" t)).

(** An SSL client that is connected and has three bytes to read. *)
Definition online : Mock.client :=
  Mock.mk_client true true ["a"%byte; "b"%byte; "c"%byte] [] two_p31 [].

(** An SSL client whose server refuses connections. *)
Definition unreachable : Mock.client :=
  Mock.mk_client false false [] [] two_p31 [].

(** An external client build after [setClient]. *)
Definition external_online : TCP := set_client (Some online) new_external.

(** A file system with one certificate file. *)
Definition disk : Mock.fs :=
  Mock.mk_fs [("/ca.der"%string, ["0"%byte; "1"%byte])] None 0.

Definition abc : list byte := ["a"%byte; "b"%byte; "c"%byte].

Definition pem : string := "-----BEGIN CERTIFICATE-----".

Definition rp2040_build : Build :=
  {| ESP_SIGNER_ENABLE_EXTERNAL_CLIENT := false;
     target := PICO_RP2040;
     ESP_IDF_3_3_0 := false;
     MBFS_FLASH_FS := true;
     MBFS_ESP32_SDFAT_ENABLED := false;
     MBFS_SD_FS := true;
     ESP8266_CORE_SDK_V3_X_X := false;
     INC_ENC28J60_LWIP := false;
     INC_W5100_LWIP := false;
     INC_W5500_LWIP := false |}.

Definition new_rp2040 : TCP := new_GAuth_TCP_Client rp2040_build wifi_up.

(** An SSL client that is connected and takes no byte. *)
Definition stalled : Mock.client :=
  Mock.mk_client true true [] [] 0 [].

(** * Properties *)

Section Properties.

Context {C F : Type} {ClientC : Client C} {FSF : MB_FS F}.
Variable B : Build.
Variable K : Constants.

Ltac run :=
  unfold bind, ret, get, assign, on_client, via_client, on_mbfs, via_mbfs, when_;
  simpl.

(** ** Integer conversions *)

Lemma to_int_of_int (x : Z) : is_int x -> to_int x = x.
Proof.
  unfold is_int, to_int, two_p31, two_p32. intros Hx.
  rewrite Z.mod_small by lia. lia.
Qed.

Lemma to_size_t_of_size_t (x : Z) : is_size_t x -> to_size_t x = x.
Proof.
  unfold is_size_t, to_size_t. intros Hx. now apply Z.mod_small.
Qed.

Lemma to_size_t_range (x : Z) : is_size_t (to_size_t x).
Proof.
  unfold is_size_t, to_size_t, two_p32. apply Z.mod_pos_bound. lia.
Qed.

Lemma to_int_range (x : Z) : is_int (to_int x).
Proof.
  unfold is_int, to_int, two_p31, two_p32.
  pose proof (Z.mod_pos_bound (x + 2147483648) 4294967296). lia.
Qed.

(** An [int] converted to [size_t] and back is unchanged, and so is a
    [size_t] converted to [int] and back. *)
Lemma to_size_t_to_int (x : Z) : to_size_t (to_int x) = to_size_t x.
Proof.
  unfold to_size_t, to_int, two_p31, two_p32.
  rewrite Zminus_mod_idemp_l. f_equal. lia.
Qed.

Lemma to_int_to_size_t (x : Z) : to_int (to_size_t x) = to_int x.
Proof.
  unfold to_size_t, to_int, two_p31, two_p32.
  rewrite Zplus_mod_idemp_l. reflexivity.
Qed.

(** Two byte counts compare as [int]s the way they compare as [size_t]s. *)
Lemma to_int_inj (a b : Z) :
  is_size_t a -> is_size_t b -> (to_int a = to_int b <-> a = b).
Proof.
  intros Ha Hb. split; [intros E | now intros ->].
  rewrite <- (to_size_t_of_size_t a Ha), <- (to_size_t_of_size_t b Hb).
  rewrite <- (to_size_t_to_int a), <- (to_size_t_to_int b). now rewrite E.
Qed.

(** ** [setError] and [begin] *)

Lemma setError_eq (code : Z) (t : GAuth_TCP_Client C F) :
  setError code t = Ok (reported code t) (recorded code t).
Proof.
  unfold setError, reported, recorded. run.
  now destruct (response_code t).
Qed.

Lemma setError_size_t_eq (code : Z) (t : GAuth_TCP_Client C F) :
  setError_size_t code t = Ok (to_size_t (reported code t)) (recorded code t).
Proof.
  unfold setError_size_t, bind. now rewrite setError_eq.
Qed.

Lemma recorded_client (code : Z) (t : GAuth_TCP_Client C F) :
  client (recorded code t) = client t.
Proof. unfold recorded. now destruct (response_code t). Qed.

Lemma begin_eq (h : string) (p : Z) (response : option Z) (t : GAuth_TCP_Client C F) :
  begin h p response t =
  Ok true (set_response_code response (set_port p (set_host (c_str h) t))).
Proof. reflexivity. Qed.

(** C9.  [setError(code)] returns -1000 and leaves the object as it is while
    the response-code pointer is null; once a pointer is registered it
    stores [code] through it and returns [code].  [begin] returns [true]
    and assigns [host], [port] and [response_code], nothing else: the SSL
    client, the file system and the radio are the ones of before the call.
    In sequence: after [begin] with a null pointer [setError] answers -1000,
    after [begin] with a pointer it stores and returns the code. *)
Theorem setError_and_begin (t : GAuth_TCP_Client C F) (code : Z)
    (h : string) (p : Z) (response : option Z) :
  (response_code t = None -> setError code t = Ok (-1000) t) /\
  (forall v, response_code t = Some v ->
     setError code t = Ok code (set_response_code (Some code) t)) /\
  (exists t',
     begin h p response t = Ok true t' /\
     t' = set_response_code response (set_port p (set_host (c_str h) t)) /\
     host t' = c_str h /\ port t' = p /\ response_code t' = response /\
     client t' = client t /\ mbfs t' = mbfs t /\ radio t' = radio t /\
     certType t' = certType t /\ timeoutmSec t' = timeoutmSec t /\
     ip t' = ip t /\ clockReady t' = clockReady t) /\
  (response = None ->
     (begin h p response ;;; setError code) t =
     Ok (-1000) (set_response_code None (set_port p (set_host (c_str h) t)))) /\
  (forall v, response = Some v ->
     (begin h p response ;;; setError code) t =
     Ok code (set_response_code (Some code) (set_port p (set_host (c_str h) t)))).
Proof.
  repeat split.
  - intros E. rewrite setError_eq. unfold reported, recorded. now rewrite E.
  - intros v E. rewrite setError_eq. unfold reported, recorded. now rewrite E.
  - eexists. split; [apply begin_eq |]. repeat split.
  - intros ->. unfold bind. rewrite begin_eq. now rewrite setError_eq.
  - intros v ->. unfold bind. rewrite begin_eq. now rewrite setError_eq.
Qed.

(** ** A null SSL client *)

Lemma connected_null (t : GAuth_TCP_Client C F) :
  client t = None -> connected t = Ok 0 t.
Proof. intros E. unfold connected. run. now rewrite E. Qed.

(** C8.  On an object whose SSL client pointer is null no method of the list
    dereferences it: [connected] and [peek] return 0, [operator bool] is
    false, [stop], [flush] and [release] return and leave the object as it
    is, and [available], [read()], [readBytes] and [read(buf, size)] return
    what [setError] gives for the connection-refused code, which is that code
    or -1000, the buffer being untouched and the client still null. *)
Theorem null_client_is_safe (fuel : nat) (t : GAuth_TCP_Client C F)
    (buf : list byte) (len size : Z) :
  client t = None ->
  let code := ESP_SIGNER_ERROR_TCP_ERROR_CONNECTION_REFUSED K in
  connected t = Ok 0 t /\
  operator_bool t = Ok false t /\
  peek t = Ok 0 t /\
  stop t = Ok tt t /\
  flush fuel t = Ok tt t /\
  release B t = Ok tt t /\
  available K t = Ok (reported code t) (recorded code t) /\
  read K t = Ok (reported code t) (recorded code t) /\
  readBytes K buf len t = Ok (reported code t, buf) (recorded code t) /\
  read_buf K buf size t = Ok (reported code t, buf) (recorded code t) /\
  (reported code t = code \/ reported code t = -1000) /\
  client (recorded code t) = None.
Proof.
  intros E code.
  assert (Hc : connected t = Ok 0 t) by now apply connected_null.
  repeat split.
  - exact Hc.
  - unfold operator_bool, bind. now rewrite Hc.
  - unfold peek. run. now rewrite E.
  - unfold stop. run. now rewrite E.
  - unfold flush. now rewrite E.
  - unfold release. run. destruct (internal_client B); simpl; now rewrite ?E.
  - unfold available. run. rewrite E. apply setError_eq.
  - unfold read. run. rewrite E. apply setError_eq.
  - unfold readBytes. run. rewrite E.
    fold (bind (setError code) (fun e => ret (e, buf)) t).
    unfold bind. now rewrite setError_eq.
  - unfold read_buf, readBytes. run. rewrite E.
    fold (bind (setError code) (fun e => ret (e, buf)) t).
    unfold bind. now rewrite setError_eq.
  - unfold reported. destruct (response_code t); auto.
  - now rewrite recorded_client.
Qed.

(** ** [connected], [flush] and [connect] *)

Lemma connected_some (t : GAuth_TCP_Client C F) (c c1 : C) (k : Z) :
  client t = Some c -> cl_connected c = (k, c1) ->
  connected t = Ok k (set_client (Some c1) t).
Proof.
  intros E Ek. unfold connected. run. rewrite E. simpl. now rewrite E, Ek.
Qed.

(** The loop of [flush] stops on a client that reports nothing left. *)
Lemma flush_loop_drained (fuel : nat) (c c' : C) :
  flush_loop fuel c = Some c' ->
  exists c0 n, cl_available c0 = (n, c') /\ n <= 0.
Proof.
  revert c. induction fuel as [|fuel IH]; intros c; simpl; [discriminate |].
  destruct (cl_available c) as [n c1] eqn:Ea.
  destruct (0 <? n) eqn:En.
  - apply IH.
  - intros [= <-]. exists c, n. split; [assumption |].
    apply Z.ltb_ge in En. lia.
Qed.

(** More fuel does not change the outcome of a loop that finished. *)
Lemma flush_loop_more_fuel (fuel fuel' : nat) (c c' : C) :
  flush_loop fuel c = Some c' -> (fuel <= fuel')%nat ->
  flush_loop fuel' c = Some c'.
Proof.
  revert fuel' c. induction fuel as [|fuel IH]; intros fuel' c; simpl; [discriminate |].
  intros H Hle. destruct fuel' as [|fuel']; [lia |]. simpl.
  destruct (cl_available c) as [n c1].
  destruct (0 <? n); [| assumption].
  apply IH; [assumption | lia].
Qed.

(** The loop finishes on every client whose pending input shrinks with each
    [read]: [size] bounds the number of rounds. *)
Lemma flush_loop_terminates (size : C -> nat) :
  (forall c n c1, cl_available c = (n, c1) -> 0 < n ->
     (size (snd (cl_read c1)) < size c)%nat) ->
  forall c, exists c', flush_loop (S (size c)) c = Some c'.
Proof.
  intros Hdec c.
  remember (size c) as m eqn:Hm.
  assert (Hle : (size c <= m)%nat) by lia. clear Hm.
  revert c Hle. induction m as [|m IH]; intros c Hle.
  - simpl. destruct (cl_available c) as [n c1] eqn:Ea.
    destruct (0 <? n) eqn:En; [| eauto].
    apply Z.ltb_lt in En. specialize (Hdec c n c1 Ea En). lia.
  - cbn [flush_loop]. destruct (cl_available c) as [n c1] eqn:Ea.
    destruct (0 <? n) eqn:En; [| eauto].
    apply Z.ltb_lt in En. specialize (Hdec c n c1 Ea En).
    apply IH. lia.
Qed.

Lemma flush_some (fuel : nat) (t : GAuth_TCP_Client C F) (c c' : C) :
  client t = Some c -> flush_loop fuel c = Some c' ->
  flush fuel t = Ok tt (set_client (Some c') t).
Proof.
  intros E Hl. unfold flush. now rewrite E, Hl.
Qed.

(** A dial that succeeds: the stored timeout goes to the SSL client, and the
    result is what the client then says of its connection. *)
Lemma connect_dial_ok (fuel : nat) (t : GAuth_TCP_Client C F) (c c1 c2 c3 c4 : C)
    (r z k' : Z) :
  client t = Some c -> cl_connected c = (0, c1) ->
  dial t c1 = (r, c2) -> r <> 0 ->
  cl_setTimeout (timeoutmSec t) c2 = (z, c3) ->
  cl_connected c3 = (k', c4) ->
  connect K fuel t = Ok (to_bool k') (set_client (Some c4) t).
Proof.
  intros E Ek Hd Hr Hs Hk'.
  unfold connect, bind. rewrite (connected_some t c c1 0 E Ek).
  simpl. unfold dial in Hd. unfold get, via_client. simpl.
  assert (Hb : to_bool r = true).
  { unfold to_bool. now destruct (Z.eqb_spec r 0). }
  destruct (0 <? Z.of_nat (String.length (host t))); simpl;
    rewrite Hd; simpl; rewrite Hb; simpl; rewrite Hs;
    unfold connected, bind, get, via_client; simpl; rewrite Hk'; reflexivity.
Qed.

(** A client that is connected already is reused: [flush], then [true]. *)
Lemma connect_reuse (fuel : nat) (t : GAuth_TCP_Client C F) (c c1 c' : C) (k : Z) :
  client t = Some c -> cl_connected c = (k, c1) -> k <> 0 ->
  flush_loop fuel c1 = Some c' ->
  connect K fuel t = Ok true (set_client (Some c') t).
Proof.
  intros E Ek Hk Hl.
  unfold connect, bind. rewrite (connected_some t c c1 k E Ek).
  unfold to_bool. destruct (Z.eqb_spec k 0) as [->|_]; [contradiction |].
  simpl. rewrite (flush_some fuel (set_client (Some c1) t) c1 c' eq_refl Hl).
  reflexivity.
Qed.

(** A dial that fails: the [int] that [setError] returns for the
    connection-refused code becomes the [bool] result. *)
Lemma connect_dial_failed (fuel : nat) (t : GAuth_TCP_Client C F) (c c1 c2 : C) :
  client t = Some c -> cl_connected c = (0, c1) ->
  dial t c1 = (0, c2) ->
  let code := ESP_SIGNER_ERROR_TCP_ERROR_CONNECTION_REFUSED K in
  let t2 := set_client (Some c2) t in
  connect K fuel t = Ok (to_bool (reported code t2)) (recorded code t2).
Proof.
  intros E Ek Hd code t2.
  unfold connect, bind. rewrite (connected_some t c c1 0 E Ek).
  simpl. unfold dial in Hd. unfold get, via_client. simpl.
  destruct (0 <? Z.of_nat (String.length (host t))); simpl;
    rewrite Hd; simpl; rewrite setError_eq; reflexivity.
Qed.

(** C2.  What [connect()] does on an object with an SSL client [c].
    - Connected already ([client->connected()] is not 0): [flush] drains the
      input and the result is [true]; only the SSL client changed, by the
      reads of [flush], and afterwards it reports nothing available.
    - Not connected: the stored host is dialled, or the stored IP address
      when the host string is empty.
      - Dial failed (result 0): [setError] is called with the
        connection-refused code and what it returns is converted to [bool].
        That is [true] as soon as no response pointer is registered (-1000)
        or the code is not 0: a failed dial is reported as success.
      - Dial succeeded: the stored timeout is passed to the SSL client and
        the result is [connected()] of the client after that. *)
Theorem connect_spec (fuel : nat) (t : GAuth_TCP_Client C F) (c c1 : C) (k : Z) :
  client t = Some c ->
  cl_connected c = (k, c1) ->
  let code := ESP_SIGNER_ERROR_TCP_ERROR_CONNECTION_REFUSED K in
  (k <> 0 ->
     forall c', flush_loop fuel c1 = Some c' ->
       connect K fuel t = Ok true (set_client (Some c') t) /\
       host (set_client (Some c') t) = host t /\
       port (set_client (Some c') t) = port t /\
       exists c0 n, cl_available c0 = (n, c') /\ n <= 0) /\
  (k = 0 ->
     forall r c2, dial t c1 = (r, c2) ->
       let t2 := set_client (Some c2) t in
       (r = 0 ->
          connect K fuel t = Ok (to_bool (reported code t2)) (recorded code t2) /\
          (response_code t = None \/ code <> 0 ->
             connect K fuel t = Ok true (recorded code t2))) /\
       (r <> 0 ->
          forall z c3 k' c4,
            cl_setTimeout (timeoutmSec t) c2 = (z, c3) ->
            cl_connected c3 = (k', c4) ->
            connect K fuel t = Ok (to_bool k') (set_client (Some c4) t))).
Proof.
  intros E Ek code. split.
  - intros Hk c' Hl. repeat split.
    + now apply (connect_reuse fuel t c c1 c' k).
    + eapply flush_loop_drained; eassumption.
  - intros -> r c2 Hd t2. split.
    + intros ->.
      pose proof (connect_dial_failed fuel t c c1 c2 E Ek Hd) as Hrun.
      cbv zeta in Hrun. fold code t2 in Hrun.
      split; [exact Hrun |].
      intros Hnz. rewrite Hrun. f_equal.
      unfold reported, t2. simpl. unfold to_bool.
      destruct (response_code t) as [v|]; [| reflexivity].
      destruct Hnz as [Hnone | Hnz]; [discriminate |].
      now destruct (Z.eqb_spec code 0).
    + intros Hr z c3 k' c4 Hs Hk'.
      now apply (connect_dial_ok fuel t c c1 c2 c3 c4 r z k').
Qed.

(** [connect] never loses the SSL client. *)
Lemma connect_keeps_client (fuel : nat) (t t' : GAuth_TCP_Client C F) (c : C) (b : bool) :
  client t = Some c -> connect K fuel t = Ok b t' ->
  exists c', client t' = Some c'.
Proof.
  intros E. destruct (cl_connected c) as [k c1] eqn:Ek.
  unfold connect, bind. rewrite (connected_some t c c1 k E Ek).
  destruct (to_bool k).
  - unfold flush. simpl. destruct (flush_loop fuel c1) as [c'|]; [| discriminate].
    intros [= _ <-]. now exists c'.
  - unfold get, via_client. simpl.
    destruct (0 <? Z.of_nat (String.length (host t))); simpl.
    + destruct (cl_connect (host t) (port t) c1) as [r c2]. simpl.
      destruct (to_bool r); simpl.
      * destruct (cl_setTimeout (timeoutmSec t) c2) as [z c3].
        unfold connected, bind, get, via_client. simpl.
        destruct (cl_connected c3) as [k' c4]. intros [= _ <-]. now exists c4.
      * rewrite setError_eq. intros [= _ <-].
        rewrite recorded_client. now exists c2.
    + destruct (cl_connect_ip (ip t) (port t) c1) as [r c2]. simpl.
      destruct (to_bool r); simpl.
      * destruct (cl_setTimeout (timeoutmSec t) c2) as [z c3].
        unfold connected, bind, get, via_client. simpl.
        destruct (cl_connected c3) as [k' c4]. intros [= _ <-]. now exists c4.
      * rewrite setError_eq. intros [= _ <-].
        rewrite recorded_client. now exists c2.
Qed.

(** ** [networkReady] *)

(** [networkReady] always returns, and it touches neither the SSL client nor
    the response pointer. *)
Lemma networkReady_frame (t : GAuth_TCP_Client C F) :
  exists ready t1,
    networkReady B K t = Ok ready t1 /\
    client t1 = client t /\ response_code t1 = response_code t /\
    host t1 = host t /\ port t1 = port t /\ ip t1 = ip t /\
    timeoutmSec t1 = timeoutmSec t.
Proof.
  unfold networkReady, ethLinkUp, bind, get, assign, ret.
  destruct (internal_client B).
  - destruct (WiFi_status (radio t) =? WL_CONNECTED K); [now eauto 10 |].
    destruct (target B); try (now eauto 10);
      destruct (eth t) as [e|] eqn:Ee; [| destruct (config t) as [cfg|] | |
                                          destruct (config t) as [cfg|]];
      simpl; rewrite ?Ee; simpl;
      repeat match goal with
             | |- context [match ?x with _ => _ end] => destruct x
             end; now eauto 10.
  - destruct (esp_signer_network_status_cb t) as [cb|]; [| now eauto 10].
    destruct (cb (radio t)) as [status|]; now eauto 10.
Qed.

(** ** [write] *)

(** The four ways through [write]. *)

Lemma write_early (fuel : nat) (data : option (list byte)) (size : Z)
    (t : GAuth_TCP_Client C F) :
  data = None \/ client t = None \/ size = 0 ->
  let failed := ESP_SIGNER_ERROR_TCP_ERROR_SEND_REQUEST_FAILED K in
  write B K fuel data size t = Ok (to_size_t (reported failed t)) (recorded failed t).
Proof.
  intros H failed. unfold write, bind, get.
  destruct data as [bytes|]; [| apply setError_size_t_eq].
  destruct (client t) as [c|]; [| apply setError_size_t_eq].
  destruct H as [H | [H | ->]]; try discriminate.
  simpl. apply setError_size_t_eq.
Qed.

Lemma write_network_down (fuel : nat) (bytes : list byte) (size : Z)
    (t t1 : GAuth_TCP_Client C F) (c : C) :
  client t = Some c -> size <> 0 ->
  networkReady B K t = Ok false t1 ->
  let down := ESP_SIGNER_ERROR_TCP_ERROR_NOT_CONNECTED K in
  write B K fuel (Some bytes) size t = Ok (to_size_t (reported down t1)) (recorded down t1).
Proof.
  intros E Hnz Hnet down.
  assert (Hz : (size =? 0) = false) by now apply Z.eqb_neq.
  unfold write, bind, get. rewrite E, Hz, Hnet. simpl.
  apply setError_size_t_eq.
Qed.

Lemma write_refused (fuel : nat) (bytes : list byte) (size : Z)
    (t t1 t3 : GAuth_TCP_Client C F) (c c1 c2 : C) :
  client t = Some c -> size <> 0 ->
  networkReady B K t = Ok true t1 -> client t1 = Some c1 ->
  cl_connected c1 = (0, c2) ->
  connect K fuel (set_client (Some c2) t1) = Ok false t3 ->
  let refused := ESP_SIGNER_ERROR_TCP_ERROR_CONNECTION_REFUSED K in
  write B K fuel (Some bytes) size t =
  Ok (to_size_t (reported refused t3)) (recorded refused t3).
Proof.
  intros E Hnz Hnet Hc Hk Hcon refused.
  assert (Hz : (size =? 0) = false) by now apply Z.eqb_neq.
  assert (Hconn : via_client cl_connected t1 = Ok 0 (set_client (Some c2) t1)).
  { unfold via_client. now rewrite Hc, Hk. }
  unfold write, bind, get. rewrite E, Hz, Hnet. simpl.
  rewrite Hconn. simpl. rewrite Hcon. simpl. apply setError_size_t_eq.
Qed.

Lemma write_sent (fuel : nat) (bytes : list byte) (size : Z)
    (t t1 t3 : GAuth_TCP_Client C F) (c c1 c2 c3 c4 : C) (k n : Z) :
  client t = Some c -> size <> 0 ->
  networkReady B K t = Ok true t1 -> client t1 = Some c1 ->
  cl_connected c1 = (k, c2) ->
  (k <> 0 /\ t3 = set_client (Some c2) t1) \/
  (k = 0 /\ connect K fuel (set_client (Some c2) t1) = Ok true t3) ->
  client t3 = Some c3 -> cl_write bytes size c3 = (n, c4) ->
  let failed := ESP_SIGNER_ERROR_TCP_ERROR_SEND_REQUEST_FAILED K in
  let ok := ESP_SIGNER_ERROR_HTTP_CODE_OK K in
  let t4 := set_client (Some c4) t3 in
  write B K fuel (Some bytes) size t =
  if to_int n =? to_int size
  then Ok size (recorded ok t4)
  else Ok (to_size_t (reported failed t4)) (recorded failed t4).
Proof.
  intros E Hnz Hnet Hc Hk Hcase Hc3 Hw failed ok t4.
  assert (Hz : (size =? 0) = false) by now apply Z.eqb_neq.
  assert (Hconn : via_client cl_connected t1 = Ok k (set_client (Some c2) t1)).
  { unfold via_client. now rewrite Hc, Hk. }
  assert (Hus : (if to_bool k then ret true else connect K fuel)
                  (set_client (Some c2) t1) = Ok true t3).
  { destruct Hcase as [[Hk0 ->] | [-> Hcon]].
    - unfold to_bool. now destruct (Z.eqb_spec k 0).
    - exact Hcon. }
  assert (Hwr : via_client (cl_write bytes size) t3 = Ok n t4).
  { unfold via_client. now rewrite Hc3, Hw. }
  unfold write, bind, get. rewrite E, Hz, Hnet. simpl.
  rewrite Hconn. rewrite Hus. simpl. rewrite Hwr.
  destruct (to_int n =? to_int size); simpl.
  - now rewrite setError_eq.
  - apply setError_size_t_eq.
Qed.

(** ** The calls return

    [flush] is the only loop.  On a client whose pending input shrinks with
    each [read], measured by [size], [connect] and [write] return a result
    once the fuel covers the input that is pending when [flush] starts, and
    more fuel gives the same result. *)

Section Termination.

Variable size : C -> nat.
Hypothesis size_decreases :
  forall c n c1, cl_available c = (n, c1) -> 0 < n ->
    (size (snd (cl_read c1)) < size c)%nat.

Lemma connect_returns (t : GAuth_TCP_Client C F) (c : C) :
  client t = Some c ->
  exists fuel b t',
    forall fuel', (fuel <= fuel')%nat -> connect K fuel' t = Ok b t'.
Proof.
  intros E. destruct (cl_connected c) as [k c1] eqn:Ek.
  destruct (Z.eq_dec k 0) as [-> | Hk].
  - destruct (dial t c1) as [r c2] eqn:Hd.
    destruct (Z.eq_dec r 0) as [-> | Hr].
    + exists 0%nat. do 2 eexists. intros fuel' _.
      exact (connect_dial_failed fuel' t c c1 c2 E Ek Hd).
    + destruct (cl_setTimeout (timeoutmSec t) c2) as [z c3] eqn:Hs.
      destruct (cl_connected c3) as [k' c4] eqn:Hk'.
      exists 0%nat. do 2 eexists. intros fuel' _.
      exact (connect_dial_ok fuel' t c c1 c2 c3 c4 r z k' E Ek Hd Hr Hs Hk').
  - destruct (flush_loop_terminates size size_decreases c1) as [c' Hl].
    exists (S (size c1)), true, (set_client (Some c') t). intros fuel' Hle.
    apply (connect_reuse fuel' t c c1 c' k E Ek Hk).
    now apply (flush_loop_more_fuel (S (size c1))).
Qed.

Lemma write_returns (data : option (list byte)) (sz : Z) (t : GAuth_TCP_Client C F) :
  exists fuel w t',
    forall fuel', (fuel <= fuel')%nat -> write B K fuel' data sz t = Ok w t'.
Proof.
  destruct data as [bytes|];
    [| exists 0%nat; do 2 eexists; intros; apply write_early; auto].
  destruct (client t) as [c|] eqn:E;
    [| exists 0%nat; do 2 eexists; intros; apply write_early; auto].
  destruct (Z.eq_dec sz 0) as [-> | Hnz];
    [exists 0%nat; do 2 eexists; intros; apply write_early; auto |].
  destruct (networkReady_frame t) as (ready & t1 & Hnet & Hc & _).
  rewrite E in Hc. destruct ready.
  2:{ exists 0%nat. do 2 eexists. intros.
      exact (write_network_down _ bytes sz t t1 c E Hnz Hnet). }
  destruct (cl_connected c) as [k c2] eqn:Ek.
  destruct (Z.eq_dec k 0) as [-> | Hk].
  - destruct (connect_returns (set_client (Some c2) t1) c2 eq_refl)
      as (fuel & b & t3 & Hcon).
    destruct b.
    + destruct (connect_keeps_client fuel (set_client (Some c2) t1) t3 c2 true eq_refl)
        as [c3 Hc3]; [apply Hcon; lia |].
      destruct (cl_write bytes sz c3) as [n c4] eqn:Hw.
      destruct (to_int n =? to_int sz) eqn:Hcmp;
        exists fuel; do 2 eexists; intros fuel' Hle;
        rewrite (write_sent fuel' bytes sz t t1 t3 c c c2 c3 c4 0 n E Hnz Hnet Hc Ek
                   (or_intror (conj eq_refl (Hcon fuel' Hle))) Hc3 Hw);
        rewrite Hcmp; reflexivity.
    + exists fuel. do 2 eexists. intros fuel' Hle.
      exact (write_refused fuel' bytes sz t t1 t3 c c c2 E Hnz Hnet Hc Ek (Hcon fuel' Hle)).
  - destruct (cl_write bytes sz c2) as [n c4] eqn:Hw.
    destruct (to_int n =? to_int sz) eqn:Hcmp;
      exists 0%nat; do 2 eexists; intros fuel' _;
      rewrite (write_sent fuel' bytes sz t t1 (set_client (Some c2) t1) c c c2 c2 c4 k n
                 E Hnz Hnet Hc Ek (or_introl (conj Hk eq_refl)) eq_refl Hw);
      rewrite Hcmp; reflexivity.
Qed.

End Termination.

(** C1, as amended.  For [write(data, size)] with a [size_t] size:
    - null [data], null SSL client or [size = 0]: the result is what
      [setError] returns for the send-request-failed code, as a [size_t];
    - otherwise [networkReady()] is asked, which leaves the SSL client alone;
      if it answers [false] the result is what [setError] returns for the
      not-connected code and the SSL client is the one of before the call:
      nothing was written;
    - otherwise, if [client->connected()] is 0 and [connect()] returns
      [false], the result is what [setError] returns for the
      connection-refused code;
    - otherwise [client->write(data, size)] runs on a client that is still
      there; a count other than [size] gives what [setError] returns for the
      send-request-failed code, and the count [size] makes [setError] record
      the HTTP-OK code and gives [size].
    What [setError] returns is the code when a response pointer is
    registered, which then holds the code, and -1000 when none is. *)
Theorem write_spec (fuel : nat) (data : option (list byte)) (size : Z)
    (t : GAuth_TCP_Client C F) :
  is_size_t size ->
  let failed := ESP_SIGNER_ERROR_TCP_ERROR_SEND_REQUEST_FAILED K in
  let down := ESP_SIGNER_ERROR_TCP_ERROR_NOT_CONNECTED K in
  let refused := ESP_SIGNER_ERROR_TCP_ERROR_CONNECTION_REFUSED K in
  let ok := ESP_SIGNER_ERROR_HTTP_CODE_OK K in
  (data = None \/ client t = None \/ size = 0 ->
     write B K fuel data size t = Ok (to_size_t (reported failed t)) (recorded failed t)) /\
  (forall bytes c,
     data = Some bytes -> client t = Some c -> size <> 0 ->
     exists ready t1,
       networkReady B K t = Ok ready t1 /\ client t1 = Some c /\
       (ready = false ->
          write B K fuel data size t = Ok (to_size_t (reported down t1)) (recorded down t1) /\
          client (recorded down t1) = Some c) /\
       (ready = true ->
          forall k c2, cl_connected c = (k, c2) ->
            let t2 := set_client (Some c2) t1 in
            (k = 0 ->
               forall t3, connect K fuel t2 = Ok false t3 ->
                 write B K fuel data size t =
                 Ok (to_size_t (reported refused t3)) (recorded refused t3)) /\
            (forall t3,
               (k <> 0 /\ t3 = t2) \/ (k = 0 /\ connect K fuel t2 = Ok true t3) ->
               exists c3,
                 client t3 = Some c3 /\
                 forall n c4, cl_write bytes size c3 = (n, c4) -> is_size_t n ->
                   let t4 := set_client (Some c4) t3 in
                   (n <> size ->
                      write B K fuel data size t =
                      Ok (to_size_t (reported failed t4)) (recorded failed t4)) /\
                   (n = size ->
                      write B K fuel data size t = Ok size (recorded ok t4))))).
Proof.
  intros Hsize failed down refused ok. split.
  - now apply write_early.
  - intros bytes c -> E Hnz.
    destruct (networkReady_frame t) as (ready & t1 & Hnet & Hc & _).
    rewrite E in Hc. exists ready, t1. split; [assumption |]. split; [assumption |].
    split.
    + intros ->. split.
      * now apply (write_network_down fuel bytes size t t1 c).
      * now rewrite recorded_client.
    + intros -> k c2 Hk t2. split.
      * intros -> t3 Hcon.
        now apply (write_refused fuel bytes size t t1 t3 c c c2).
      * intros t3 Hcase.
        assert (Hc3 : exists c3, client t3 = Some c3).
        { destruct Hcase as [[_ ->] | [_ Hcon]].
          - now exists c2.
          - eapply (connect_keeps_client fuel t2 t3 c2); [reflexivity | eassumption]. }
        destruct Hc3 as [c3 Hc3]. exists c3. split; [assumption |].
        intros n c4 Hw Hn t4.
        pose proof (write_sent fuel bytes size t t1 t3 c c c2 c3 c4 k n
                      E Hnz Hnet Hc Hk Hcase Hc3 Hw) as Hrun.
        cbv zeta in Hrun. rewrite Hrun. fold t4.
        destruct (to_int_inj n size Hn Hsize) as [Hinj _].
        split.
        -- intros Hne. destruct (Z.eqb_spec (to_int n) (to_int size)) as [Heq|_].
           ++ elim Hne. now apply Hinj.
           ++ reflexivity.
        -- intros ->. now rewrite Z.eqb_refl.
Qed.

(** ** [readBytes] and [read] *)

(** C5, as amended.  For [readBytes(buf, len)] with an [int] length:
    - null SSL client: the result is what [setError] returns for the
      connection-refused code, and the buffer is untouched;
    - otherwise the client is asked for [len] bytes ([len] as a [size_t]) and
      its count comes back as an [int]: if that differs from [len] the result
      is what [setError] returns for the response-read-failed code, if it
      equals [len] then [setError] records the HTTP-OK code and the result is
      [len].  For a length that is not negative the counts compare as plain
      numbers.
    What [setError] returns is the code when a response pointer is
    registered, which then holds the code, and -1000 when none is.
    [read(buf, size)] is [readBytes(buf, size)] with [size] converted to
    [int], the same number below 2^31. *)
Theorem readBytes_spec (buf : list byte) (len size : Z) (t : GAuth_TCP_Client C F) :
  is_int len ->
  let refused := ESP_SIGNER_ERROR_TCP_ERROR_CONNECTION_REFUSED K in
  let failed := ESP_SIGNER_ERROR_TCP_RESPONSE_READ_FAILED K in
  let ok := ESP_SIGNER_ERROR_HTTP_CODE_OK K in
  (client t = None ->
     readBytes K buf len t = Ok (reported refused t, buf) (recorded refused t)) /\
  (forall c n buf' c',
     client t = Some c ->
     cl_readBytes buf (to_size_t len) c = (n, buf', c') ->
     let t1 := set_client (Some c') t in
     (to_int n <> len ->
        readBytes K buf len t = Ok (reported failed t1, buf') (recorded failed t1)) /\
     (to_int n = len ->
        readBytes K buf len t = Ok (len, buf') (recorded ok t1)) /\
     (0 <= len -> is_size_t n ->
        to_size_t len = len /\ (to_int n = len <-> n = len))) /\
  read_buf K buf size t = readBytes K buf (to_int size) t /\
  (0 <= size < two_p31 -> read_buf K buf size t = readBytes K buf size t).
Proof.
  intros Hlen refused failed ok. split; [| split; [| split]].
  - intros E. unfold readBytes. run. rewrite E.
    fold (bind (setError refused) (fun e => ret (e, buf)) t).
    unfold bind. now rewrite setError_eq.
  - intros c n buf' c' E Hr t1.
    assert (Hrun : readBytes K buf len t =
                   if to_int n =? len
                   then Ok (len, buf') (recorded ok t1)
                   else Ok (reported failed t1, buf') (recorded failed t1)).
    { unfold readBytes, bind, get, via_client. rewrite E. simpl.
      rewrite E, Hr. simpl.
      destruct (Z.eqb_spec (to_int n) len) as [Heq|_]; simpl;
        rewrite setError_eq; [now rewrite Heq | reflexivity]. }
    split; [| split].
    + intros Hne. rewrite Hrun.
      now destruct (Z.eqb_spec (to_int n) len).
    + intros Heq. rewrite Hrun, Heq. now rewrite Z.eqb_refl.
    + intros Hpos Hn. split.
      * apply to_size_t_of_size_t.
        unfold is_size_t, is_int, two_p31, two_p32 in *. lia.
      * split; [| intros ->; now apply to_int_of_int].
        intros Heq. unfold is_size_t, is_int, to_int, two_p31, two_p32 in *.
        destruct (Z_lt_ge_dec n 2147483648) as [Hlt|Hge].
        -- rewrite Z.mod_small in Heq by lia. lia.
        -- replace (n + 2147483648) with (n - 2147483648 + 1 * 4294967296) in Heq by lia.
           rewrite Z_mod_plus_full, Z.mod_small in Heq by lia. lia.
  - reflexivity.
  - intros Hs. unfold read_buf. rewrite to_int_of_int; [reflexivity |].
    unfold is_int, two_p31 in *. lia.
Qed.

(** ** The convenience wrappers *)

(** What [write] returns is a [size_t]. *)
Lemma write_result_size_t (fuel : nat) (data : option (list byte)) (size w : Z)
    (t t' : GAuth_TCP_Client C F) :
  is_size_t size -> write B K fuel data size t = Ok w t' -> is_size_t w.
Proof.
  intros Hsize. unfold write, bind, get.
  repeat match goal with
         | |- setError_size_t _ _ = _ -> _ =>
             rewrite setError_size_t_eq; intros [= <- _]; apply to_size_t_range
         | |- context [setError ?code ?x] => rewrite (setError_eq code x)
         | |- Ok _ _ = Ok _ _ -> _ => intros [= <- _]; assumption
         | |- ret _ _ = Ok _ _ -> _ => intros [= <- _]; assumption
         | |- NullDeref = _ -> _ => discriminate
         | |- OutOfFuel = _ -> _ => discriminate
         | |- context [match ?x with _ => _ end] => destruct x; simpl
         end.
Qed.

(** C10.  The wrappers are their primitives:
    - [write(v)] is [write(buf, 1)] on the one-byte buffer that holds [v];
    - [print(s)] is [send(s)], also for a null pointer;
    - [send(s, 0)] is [write(s, strlen(s))] on the bytes of [s], its [size_t]
      result being returned as an [int]: nothing is lost, the [int] converts
      back to the very [size_t];
    - [readBytes] on a [char] buffer is [readBytes] on the same bytes, the
      bytes it leaves being the characters left in the [char] buffer. *)
Theorem wrappers_agree (fuel : nat) (t : GAuth_TCP_Client C F) (v : byte)
    (data : option string) (s : string) (bs : list byte) (len : Z) :
  strlen s < two_p32 ->
  write_byte B K fuel v t = write B K fuel (Some [v]) 1 t /\
  print B K fuel data t = send B K fuel data 0 t /\
  send B K fuel (Some s) 0 t =
    (w <- write B K fuel (Some (list_byte_of_string s)) (strlen s) ;; ret (to_int w)) t /\
  (forall w t',
     write B K fuel (Some (list_byte_of_string s)) (strlen s) t = Ok w t' ->
     send B K fuel (Some s) 0 t = Ok (to_int w) t' /\ to_size_t (to_int w) = w) /\
  readBytes_char K (map ascii_of_byte bs) len t =
    (r <- readBytes K bs len ;; ret (fst r, map ascii_of_byte (snd r))) t /\
  (forall r bs' t',
     readBytes K bs len t = Ok (r, bs') t' ->
     readBytes_char K (map ascii_of_byte bs) len t = Ok (r, map ascii_of_byte bs') t').
Proof.
  intros Hs.
  assert (Hlen : is_size_t (strlen s)).
  { unfold is_size_t, strlen in *. lia. }
  assert (Hconv : to_size_t (to_int (strlen s)) = strlen s).
  { rewrite to_size_t_to_int. now apply to_size_t_of_size_t. }
  assert (Hsend : send B K fuel (Some s) 0 t =
    (w <- write B K fuel (Some (list_byte_of_string s)) (strlen s) ;; ret (to_int w)) t).
  { unfold send, bind, ret. simpl. now rewrite Hconv. }
  assert (Hbytes : map byte_of_ascii (map ascii_of_byte bs) = bs).
  { rewrite map_map. rewrite <- (map_id bs) at 2.
    apply map_ext. intros b. apply byte_of_ascii_of_byte. }
  split; [reflexivity |]. split; [reflexivity |]. split; [exact Hsend |].
  split; [| split].
  - intros w t' Hw. split.
    + rewrite Hsend. unfold bind. now rewrite Hw.
    + rewrite to_size_t_to_int. apply to_size_t_of_size_t.
      eapply write_result_size_t; eassumption.
  - unfold readBytes_char. now rewrite Hbytes.
  - intros r bs' t' Hr. unfold readBytes_char, bind. rewrite Hbytes, Hr.
    reflexivity.
Qed.

(** ** [setTimeout] *)

(** C6, as amended.  The stored timeout of a new object is 10000 ms.
    [setTimeout(timeout)] stores [timeout]; in a build with the internal
    client it also passes it to the SSL client, as [timeout / 1000] on ESP32,
    where the client's answer is the result, and as [timeout] on ESP8266 and
    RP2040, where the result is 1; in an external client build (and on no
    known target) the SSL client is left alone and the result is 1.
    [connect()] passes the stored timeout, as it is, to the SSL client after
    each dial that succeeded, so after [setTimeout(timeout)] that is
    [timeout]. *)
Theorem setTimeout_spec (timeout : Z) (t : GAuth_TCP_Client C F) (r0 : Radio) :
  timeoutmSec (new_GAuth_TCP_Client B r0 : GAuth_TCP_Client C F) = 10000 /\
  (forall z t', setTimeout B timeout t = Ok z t' -> timeoutmSec t' = timeout) /\
  (internal_client B = false \/ target B = OTHER_TARGET ->
     setTimeout B timeout t = Ok 1 (set_timeoutmSec timeout t) /\
     client (set_timeoutmSec timeout t) = client t) /\
  (forall c z c',
     internal_client B = true -> target B = ESP32 -> client t = Some c ->
     cl_setTimeout (timeout / 1000) c = (z, c') ->
     setTimeout B timeout t = Ok z (set_client (Some c') (set_timeoutmSec timeout t))) /\
  (forall c z c',
     internal_client B = true -> bearssl_target (target B) = true ->
     client t = Some c ->
     cl_setTimeout timeout c = (z, c') ->
     setTimeout B timeout t = Ok 1 (set_client (Some c') (set_timeoutmSec timeout t))) /\
  (forall fuel c c1 c2 c3 c4 r z k',
     client t = Some c -> cl_connected c = (0, c1) ->
     dial t c1 = (r, c2) -> r <> 0 ->
     cl_setTimeout (timeoutmSec t) c2 = (z, c3) ->
     cl_connected c3 = (k', c4) ->
     connect K fuel t = Ok (to_bool k') (set_client (Some c4) t)).
Proof.
  split; [reflexivity |]. split; [| split; [| split; [| split]]].
  - intros z t'. unfold setTimeout, bind, assign, ret, via_client. simpl.
    destruct (internal_client B); [| now intros [= _ <-]].
    destruct (target B); simpl;
      try (destruct (client t) as [c|]; [| discriminate];
           destruct (cl_setTimeout _ c) as [z' c']);
      now intros [= _ <-].
  - intros [Hext | Hother]; (split; [| reflexivity]);
      unfold setTimeout, bind, assign, ret.
    + now rewrite Hext.
    + rewrite Hother. now destruct (internal_client B).
  - intros c z c' Hint Htarget E Hs.
    unfold setTimeout, bind, assign, ret, via_client.
    rewrite Hint, Htarget. simpl. now rewrite E, Hs.
  - intros c z c' Hint Htarget E Hs.
    unfold setTimeout, bind, assign, ret, via_client. rewrite Hint.
    destruct (target B); try discriminate; simpl; now rewrite E, Hs.
  - intros fuel c c1 c2 c3 c4 r z k'. apply connect_dial_ok.
Qed.

(** ** Trust configuration: [setCACert] and [setCertFile] *)

Lemma setInsecure_some (t : GAuth_TCP_Client C F) (c : C) :
  internal_client B = true -> client t = Some c ->
  setInsecure B t = Ok tt (set_client (Some (made_insecure B c)) t).
Proof.
  intros Hint E. unfold setInsecure, made_insecure. rewrite Hint.
  run. destruct (target B); try destruct (ESP_IDF_3_3_0 B); simpl;
    rewrite ?E; try reflexivity.
  all: destruct t; simpl in *; now subst.
Qed.

(** C4, as amended.  In an external client build [setCACert] does nothing.
    In a build with the internal client, on an object whose SSL client is
    [c] (after [setBufferSizes] on ESP8266 and RP2040):
    - a certificate makes the recorded type 'data' and goes to the SSL
      client, through [setCACert] on ESP32 and as trust anchors on ESP8266
      and RP2040;
    - a null pointer makes the recorded type 'none', stops the connection,
      clears the certificate ([setCACert(NULL)], ESP32) or sets no-delay
      (ESP8266, RP2040), and calls [setInsecure()], which reaches the SSL
      client on ESP8266 and RP2040 and, with ESP-IDF 3.3.0 or later, on
      ESP32.
    [getCertType()] returns the recorded type. *)
Theorem setCACert_spec (caCert : option string) (t : GAuth_TCP_Client C F) :
  getCertType t = Ok (certType t) t /\
  (internal_client B = false -> setCACert B caCert t = Ok tt t) /\
  (forall c,
     internal_client B = true -> client t = Some c ->
     exists t',
       setCACert B caCert t = Ok tt t' /\
       getCertType t' = Ok (certType t') t' /\
       response_code t' = response_code t /\ host t' = host t /\
       port t' = port t /\ timeoutmSec t' = timeoutmSec t /\
       match caCert with
       | Some pem =>
           certType t' = esp_signer_cert_type_data /\
           client t' = Some (with_anchor B pem (resized B t c))
       | None =>
           certType t' = esp_signer_cert_type_none /\
           client t' = Some (without_anchor B (resized B t c))
       end).
Proof.
  split; [reflexivity |]. split.
  - intros Hext. unfold setCACert. now rewrite Hext.
  - intros c Hint E.
    unfold setCACert, with_anchor, without_anchor, resized. rewrite Hint.
    destruct caCert as [pem|].
    + destruct (target B); run; rewrite ?E; simpl; rewrite ?E; simpl;
        eexists; (split; [reflexivity |]); repeat split;
        try (simpl; assumption).
    + unfold bind at 1 2 3 4.
      destruct (target B); run; rewrite ?E; simpl; rewrite ?E; simpl;
        match goal with
        | |- context [setInsecure B ?x] =>
            erewrite (setInsecure_some x) by (try assumption; reflexivity)
        end;
        eexists; (split; [reflexivity |]); repeat split;
        try (simpl; assumption).
Qed.

Lemma strlen_nonneg (s : string) : 0 <= strlen s.
Proof. unfold strlen. lia. Qed.

(** The result of [setCertFile] is the comparison that ends it. *)
Lemma setCertFile_result (caCertFile : option string)
    (storageType : mb_fs_mem_storage_type) (t t' : GAuth_TCP_Client C F) (b : bool) :
  setCertFile B caCertFile storageType t = Ok b t' ->
  b = cert_type_eqb (certType t') esp_signer_cert_type_file.
Proof.
  unfold setCertFile. unfold bind at 1.
  match goal with |- context [match ?m t with _ => _ end] => destruct (m t) end;
    try discriminate.
  unfold bind, get, ret. now intros [= <- <-].
Qed.

(** With nothing to read the call comes down to the buffer sizes. *)
Lemma setCertFile_idle (caCertFile : option string)
    (storageType : mb_fs_mem_storage_type) (t : GAuth_TCP_Client C F) :
  no_file_wanted caCertFile t ->
  setCertFile B caCertFile storageType t =
  if internal_client B && bearssl_target (target B) then
    match client t with
    | Some c =>
        Ok (cert_type_eqb (certType t) esp_signer_cert_type_file)
           (set_client (Some (resized B t c)) t)
    | None => NullDeref
    end
  else Ok (cert_type_eqb (certType t) esp_signer_cert_type_file) t.
Proof.
  intros Hq. unfold setCertFile, resized.
  destruct (internal_client B); [| reflexivity].
  destruct (bearssl_target (target B)); run.
  - destruct (client t) as [c|]; [| reflexivity]. simpl.
    destruct Hq as [-> | (name & -> & Hn)]; [reflexivity |].
    destruct (clockReady t); [| reflexivity]. now rewrite Hn.
  - destruct Hq as [-> | (name & -> & Hn)]; [reflexivity |].
    destruct (clockReady t); [| reflexivity]. now rewrite Hn.
Qed.

(** C3.  For [setCertFile(caCertFile, storageType)]:
    - the clock flag is false in a new object and [setClockStatus] is what
      assigns it;
    - whenever the call returns, its result is [true] exactly when the
      recorded certificate type is 'file' after it;
    - when the clock was not marked ready or the file name is empty, the
      file system, the recorded type, the certificate buffer and the trust
      anchors are those of before the call, and the SSL client is too, but
      for the buffer sizes it is given first on ESP8266 and RP2040; the call
      does return then, as long as that first step finds an SSL client;
    - so a call after which the file system, the recorded type or (beyond
      the buffer sizes) the SSL client differs was made with the clock
      marked ready and a name that is not empty. *)
Theorem setCertFile_spec (caCertFile : option string)
    (storageType : mb_fs_mem_storage_type) (t : GAuth_TCP_Client C F) :
  (forall b t',
     setCertFile B caCertFile storageType t = Ok b t' ->
     (b = true <-> certType t' = esp_signer_cert_type_file)) /\
  (no_file_wanted caCertFile t ->
     (forall b t',
        setCertFile B caCertFile storageType t = Ok b t' ->
        mbfs t' = mbfs t /\ certType t' = certType t /\
        cert t' = cert t /\ x509 t' = x509 t /\
        client t' =
          (if internal_client B then option_map (resized B t) (client t) else client t)) /\
     (client t <> None \/ internal_client B && bearssl_target (target B) = false ->
        exists b t', setCertFile B caCertFile storageType t = Ok b t')) /\
  (forall b t',
     setCertFile B caCertFile storageType t = Ok b t' ->
     mbfs t' <> mbfs t \/ certType t' <> certType t \/
     client t' <>
       (if internal_client B then option_map (resized B t) (client t) else client t) ->
     clockReady t = true /\
     exists name, caCertFile = Some name /\ 0 < strlen name) /\
  (forall r, clockReady (new_GAuth_TCP_Client B r : GAuth_TCP_Client C F) = false) /\
  (forall status,
     setClockStatus status t = Ok tt (set_clockReady status t) /\
     clockReady (set_clockReady status t) = status).
Proof.
  assert (Hidle : no_file_wanted caCertFile t ->
    forall b t', setCertFile B caCertFile storageType t = Ok b t' ->
      mbfs t' = mbfs t /\ certType t' = certType t /\
      cert t' = cert t /\ x509 t' = x509 t /\
      client t' =
        (if internal_client B then option_map (resized B t) (client t) else client t)).
  { intros Hq b t'. rewrite (setCertFile_idle _ _ _ Hq). unfold resized.
    destruct (internal_client B); simpl.
    - destruct (bearssl_target (target B)).
      + destruct (client t) as [c|]; [| discriminate].
        intros [= _ <-]. now repeat split.
      + intros [= _ <-]. repeat split. now destruct (client t).
    - intros [= _ <-]. now repeat split. }
  split; [| split; [split |split; [| split; [reflexivity | now split]]]].
  - intros b t' H. apply setCertFile_result in H. subst b.
    destruct (certType t'); simpl; split; intros; congruence.
  - now apply Hidle.
  - intros Hc. rewrite (setCertFile_idle _ _ _ H).
    destruct (internal_client B && bearssl_target (target B)) eqn:Hb; [| eauto].
    destruct (client t) as [c|]; [eauto |].
    destruct Hc as [Hc | Hc]; [now elim Hc | discriminate].
  - intros b t' Hrun Hdiff.
    destruct (clockReady t) eqn:Hclock.
    + split; [reflexivity |].
      destruct caCertFile as [name|].
      * exists name. split; [reflexivity |].
        destruct (Z.eq_dec (strlen name) 0) as [Hz|Hnz].
        -- exfalso.
           assert (Hq : no_file_wanted (Some name) t) by (right; eauto).
           destruct (Hidle Hq b t' Hrun) as (Hm & Ht & _ & _ & Hcl).
           destruct Hdiff as [Hd | [Hd | Hd]]; contradiction.
        -- pose proof (strlen_nonneg name). lia.
      * exfalso. revert Hrun. unfold setCertFile.
        destruct (internal_client B).
        -- run. destruct (bearssl_target (target B)); simpl.
           ++ destruct (client t); simpl; [| discriminate].
              rewrite Hclock. discriminate.
           ++ rewrite Hclock. discriminate.
        -- run. intros [= _ <-]. destruct Hdiff as [Hd | [Hd | Hd]]; now elim Hd.
    + exfalso.
      assert (Hq : no_file_wanted caCertFile t) by now left.
      destruct (Hidle Hq b t' Hrun) as (Hm & Ht & _ & _ & Hcl).
      destruct Hdiff as [Hd | [Hd | Hd]]; contradiction.
Qed.

(** * Further properties of the wrapper *)

(** ** [flush] *)

(** X1.  On a client whose pending input shrinks with each [read], [flush]
    returns as soon as the fuel reaches the pending input plus one, always
    with the same object; in that object only the SSL client has changed,
    and the last thing the client said was that nothing is available. *)
Theorem flush_drains (size : C -> nat) (t : GAuth_TCP_Client C F) (c : C) :
  (forall c0 n c1, cl_available c0 = (n, c1) -> 0 < n ->
     (size (snd (cl_read c1)) < size c0)%nat) ->
  client t = Some c ->
  exists c',
    (forall fuel, (S (size c) <= fuel)%nat ->
       flush fuel t = Ok tt (set_client (Some c') t)) /\
    (exists c0 n, cl_available c0 = (n, c') /\ n <= 0).
Proof.
  intros Hdec E.
  destruct (flush_loop_terminates size Hdec c) as [c' Hl].
  exists c'. split.
  - intros fuel Hle. apply (flush_some fuel t c c' E).
    now apply (flush_loop_more_fuel (S (size c))).
  - eapply flush_loop_drained; eassumption.
Qed.

(** ** Null pointers in [connect] and [write] *)

Lemma connect_no_fault (fuel : nat) (t : GAuth_TCP_Client C F) (c : C) :
  client t = Some c -> connect K fuel t <> NullDeref.
Proof.
  intros E. destruct (cl_connected c) as [k c1] eqn:Ek.
  unfold connect, bind. rewrite (connected_some t c c1 k E Ek).
  destruct (to_bool k).
  - unfold flush. simpl. destruct (flush_loop fuel c1); discriminate.
  - unfold get, via_client. simpl.
    destruct (0 <? Z.of_nat (String.length (host t))); simpl.
    + destruct (cl_connect (host t) (port t) c1) as [r c2]. simpl.
      destruct (to_bool r); simpl.
      * destruct (cl_setTimeout (timeoutmSec t) c2) as [z c3].
        unfold connected, bind, get, via_client. simpl.
        destruct (cl_connected c3). discriminate.
      * rewrite setError_eq. discriminate.
    + destruct (cl_connect_ip (ip t) (port t) c1) as [r c2]. simpl.
      destruct (to_bool r); simpl.
      * destruct (cl_setTimeout (timeoutmSec t) c2) as [z c3].
        unfold connected, bind, get, via_client. simpl.
        destruct (cl_connected c3). discriminate.
      * rewrite setError_eq. discriminate.
Qed.

(** X2.  [write] never dereferences a null pointer, whatever the buffer, the
    size, the object and the SSL client are and however little fuel there
    is; and on a client whose pending input shrinks with each [read] it
    returns a result once there is fuel enough, the same for more fuel. *)
Theorem write_never_faults (fuel : nat) (data : option (list byte)) (size : Z)
    (t : GAuth_TCP_Client C F) :
  write B K fuel data size t <> NullDeref /\
  forall measure : C -> nat,
    (forall c n c1, cl_available c = (n, c1) -> 0 < n ->
       (measure (snd (cl_read c1)) < measure c)%nat) ->
    exists fuel0 w t',
      forall fuel', (fuel0 <= fuel')%nat -> write B K fuel' data size t = Ok w t'.
Proof.
  split; [| intros measure Hdec; exact (write_returns measure Hdec data size t)].
  destruct data as [bytes|]; [| rewrite write_early by auto; discriminate].
  destruct (client t) as [c|] eqn:E; [| rewrite write_early by auto; discriminate].
  destruct (Z.eq_dec size 0) as [-> | Hnz];
    [rewrite write_early by auto; discriminate |].
  destruct (networkReady_frame t) as (ready & t1 & Hnet & Hc & _).
  rewrite E in Hc. destruct ready.
  2:{ rewrite (write_network_down fuel bytes size t t1 c E Hnz Hnet). discriminate. }
  destruct (cl_connected c) as [k c2] eqn:Ek.
  destruct (Z.eq_dec k 0) as [-> | Hk].
  - destruct (connect K fuel (set_client (Some c2) t1)) as [b t3| |] eqn:Hcon.
    + destruct b.
      * destruct (connect_keeps_client fuel (set_client (Some c2) t1) t3 c2 true
                    eq_refl Hcon) as [c3 Hc3].
        destruct (cl_write bytes size c3) as [n c4] eqn:Hw.
        rewrite (write_sent fuel bytes size t t1 t3 c c c2 c3 c4 0 n E Hnz Hnet Hc Ek
                   (or_intror (conj eq_refl Hcon)) Hc3 Hw).
        destruct (to_int n =? to_int size); discriminate.
      * rewrite (write_refused fuel bytes size t t1 t3 c c c2 E Hnz Hnet Hc Ek Hcon).
        discriminate.
    + exfalso. exact (connect_no_fault fuel (set_client (Some c2) t1) c2 eq_refl Hcon).
    + assert (Hz : (size =? 0) = false) by now apply Z.eqb_neq.
      assert (Hconn : via_client cl_connected t1 = Ok 0 (set_client (Some c2) t1)).
      { unfold via_client. now rewrite Hc, Ek. }
      unfold write, bind, get. rewrite E, Hz, Hnet. simpl.
      rewrite Hconn. simpl. rewrite Hcon. discriminate.
  - destruct (cl_write bytes size c2) as [n c4] eqn:Hw.
    rewrite (write_sent fuel bytes size t t1 (set_client (Some c2) t1) c c c2 c2 c4 k n
               E Hnz Hnet Hc Ek (or_introl (conj Hk eq_refl)) eq_refl Hw).
    destruct (to_int n =? to_int size); discriminate.
Qed.


(** ** The [connect] overloads *)

Lemma host_nonempty (t : GAuth_TCP_Client C F) :
  host t <> EmptyString -> (0 <? Z.of_nat (String.length (host t))) = true.
Proof.
  intros Hne. destruct (host t); [now elim Hne |]. apply Z.ltb_lt. simpl. lia.
Qed.

(** X4.  [connect(ip, port)] on an object that holds a host name never uses
    the address: it stores it, and [connect()] dials the stored host on the
    new port.  The outcome is the one of [client->connect(host, port)]: 1
    after a dial that succeeds when the client then reports a connection,
    and what [setError] returns, as 0 or 1, after one that fails.  The
    address is dialled only when the host string is empty. *)
Theorem connect_ip_dials_stored_host (fuel : nat) (a p : Z)
    (t : GAuth_TCP_Client C F) (c c1 c2 : C) (r : Z) :
  client t = Some c ->
  host t <> EmptyString ->
  cl_connected c = (0, c1) ->
  cl_connect (host t) p c1 = (r, c2) ->
  let code := ESP_SIGNER_ERROR_TCP_ERROR_CONNECTION_REFUSED K in
  let t' := set_port p (set_ip a t) in
  dial t' c1 = (r, c2) /\
  (forall t0 : GAuth_TCP_Client C F,
     host t0 = EmptyString -> dial t0 c1 = cl_connect_ip (ip t0) (port t0) c1) /\
  (r = 0 ->
     connect_ip K fuel a p t =
     Ok (if to_bool (reported code (set_client (Some c2) t')) then 1 else 0)
        (recorded code (set_client (Some c2) t'))) /\
  (r <> 0 ->
     forall z c3 k' c4,
       cl_setTimeout (timeoutmSec t) c2 = (z, c3) ->
       cl_connected c3 = (k', c4) ->
       connect_ip K fuel a p t =
       Ok (if to_bool k' then 1 else 0) (set_client (Some c4) t')).
Proof.
  intros E Hhost Ek Hd code t'.
  assert (Hdial : dial t' c1 = (r, c2)).
  { unfold dial, t'. simpl. now rewrite (host_nonempty t Hhost). }
  split; [exact Hdial |]. split; [| split].
  - intros t0 H0. unfold dial. now rewrite H0.
  - intros ->. unfold connect_ip, bind, assign. simpl.
    pose proof (connect_dial_failed fuel t' c c1 c2 E Ek Hdial) as Hrun.
    cbv zeta in Hrun. unfold t' in *. rewrite Hrun. reflexivity.
  - intros Hr z c3 k' c4 Hs Hk'. unfold connect_ip, bind, assign. simpl.
    pose proof (connect_dial_ok fuel t' c c1 c2 c3 c4 r z k' E Ek Hdial Hr Hs Hk')
      as Hrun.
    unfold t' in *. rewrite Hrun.
    reflexivity.
Qed.

(** ** [write] after a dial that failed *)

(** X14.  [write] on a client that is not connected, when the dial of
    [connect()] fails and [setError] returns something other than 0 (as it
    does with no response pointer, or with a code that is not 0): the
    failure is not reported.  [client->write] is called on the client left
    by the failed dial, and the result is [size] when that client takes
    [size] bytes, and otherwise what [setError] returns for the
    send-request-failed code; the connection-refused code, stored by
    [connect()], is overwritten either way. *)
Theorem write_after_failed_dial_goes_on (fuel : nat) (bytes : list byte) (size : Z)
    (t t1 : GAuth_TCP_Client C F) (c c2 c3 c4 c5 : C) (n : Z) :
  client t = Some c -> size <> 0 ->
  networkReady B K t = Ok true t1 ->
  cl_connected c = (0, c2) ->
  cl_connected c2 = (0, c3) ->
  dial t1 c3 = (0, c4) ->
  let refused := ESP_SIGNER_ERROR_TCP_ERROR_CONNECTION_REFUSED K in
  let failed := ESP_SIGNER_ERROR_TCP_ERROR_SEND_REQUEST_FAILED K in
  let ok := ESP_SIGNER_ERROR_HTTP_CODE_OK K in
  reported refused t1 <> 0 ->
  cl_write bytes size c4 = (n, c5) ->
  let t5 := set_client (Some c5) (recorded refused t1) in
  write B K fuel (Some bytes) size t =
  if to_int n =? to_int size
  then Ok size (recorded ok t5)
  else Ok (to_size_t (reported failed t5)) (recorded failed t5).
Proof.
  intros E Hnz Hnet Ek Ek2 Hd refused failed ok Hrep Hw t5.
  destruct (networkReady_frame t) as (ready & t1' & Hnet' & Hc & Hrc & _).
  rewrite Hnet in Hnet'. injection Hnet' as <- <-. rewrite E in Hc.
  pose proof (connect_dial_failed fuel (set_client (Some c2) t1) c2 c3 c4
                eq_refl Ek2 Hd) as Hcon.
  cbv zeta in Hcon.
  assert (Hrec : recorded refused (set_client (Some c4) (set_client (Some c2) t1)) =
                 set_client (Some c4) (recorded refused t1)).
  { unfold recorded. simpl. now destruct (response_code t1). }
  assert (Htrue : to_bool (reported refused (set_client (Some c4) (set_client (Some c2) t1)))
                  = true).
  { unfold to_bool. change (reported refused (set_client (Some c4) (set_client (Some c2) t1)))
      with (reported refused t1).
    now destruct (Z.eqb_spec (reported refused t1) 0). }
  fold refused in Hcon. rewrite Htrue, Hrec in Hcon.
  rewrite (write_sent fuel bytes size t t1 (set_client (Some c4) (recorded refused t1))
             c c c2 c4 c5 0 n E Hnz Hnet Hc Ek
             (or_intror (conj eq_refl Hcon)) eq_refl Hw).
  reflexivity.
Qed.

(** ** [send], [print] and [println] *)

(** [send] of a string of length 0. *)
Lemma send_empty (fuel : nat) (s : string) (t : GAuth_TCP_Client C F) :
  strlen s = 0 ->
  let failed := ESP_SIGNER_ERROR_TCP_ERROR_SEND_REQUEST_FAILED K in
  send B K fuel (Some s) 0 t = Ok (to_int (reported failed t)) (recorded failed t).
Proof.
  intros Hs failed.
  unfold send, bind, ret. simpl. rewrite Hs.
  change (to_size_t (to_int 0)) with 0.
  rewrite write_early by auto. cbv zeta. now rewrite to_int_to_size_t.
Qed.

(** X5.  An empty string cannot be sent, and a null one must not be: for a
    string of length 0, [send(s)] and [print(s)] return what [setError]
    gives for the send-request-failed code and the SSL client is not
    touched; for a null pointer [send(NULL)] and [print(NULL)] run
    [strlen] on it, while [send(NULL, len)] with a length returns the same
    error as for the empty string. *)
Theorem send_empty_and_null (fuel : nat) (s : string) (len : Z)
    (t : GAuth_TCP_Client C F) :
  strlen s = 0 ->
  let failed := ESP_SIGNER_ERROR_TCP_ERROR_SEND_REQUEST_FAILED K in
  send B K fuel (Some s) 0 t = Ok (to_int (reported failed t)) (recorded failed t) /\
  print B K fuel (Some s) t = Ok (to_int (reported failed t)) (recorded failed t) /\
  client (recorded failed t) = client t /\
  send B K fuel None 0 t = NullDeref /\
  print B K fuel None t = NullDeref /\
  (len <> 0 ->
     send B K fuel None len t = Ok (to_int (reported failed t)) (recorded failed t)).
Proof.
  intros Hs failed.
  pose proof (send_empty fuel s t Hs) as Hsend. cbv zeta in Hsend. fold failed in Hsend.
  split; [exact Hsend |]. split; [exact Hsend |].
  split; [apply recorded_client |]. split; [reflexivity |]. split; [reflexivity |].
  intros Hlen. unfold send, bind, ret.
  destruct (Z.eqb_spec len 0) as [-> | _]; [now elim Hlen |].
  simpl. rewrite write_early by auto. cbv zeta. now rewrite to_int_to_size_t.
Qed.

(** What [write] returns: the size, which is then not 0, or an error. *)
Lemma write_result_cases (fuel : nat) (data : option (list byte)) (size w : Z)
    (t t' : GAuth_TCP_Client C F) :
  write B K fuel data size t = Ok w t' ->
  (w = size /\ size <> 0) \/
  exists code (tx : GAuth_TCP_Client C F),
    In code [ESP_SIGNER_ERROR_TCP_ERROR_SEND_REQUEST_FAILED K;
             ESP_SIGNER_ERROR_TCP_ERROR_NOT_CONNECTED K;
             ESP_SIGNER_ERROR_TCP_ERROR_CONNECTION_REFUSED K] /\
    w = to_size_t (reported code tx).
Proof.
  unfold write, bind, get.
  destruct data as [bytes|]; [destruct (client t) as [c|] |];
    try (rewrite setError_size_t_eq; intros [= <- _]; right;
         do 2 eexists; split; [| reflexivity]; simpl; tauto).
  destruct (Z.eqb_spec size 0) as [-> | Hnz];
    [rewrite setError_size_t_eq; intros [= <- _]; right;
     do 2 eexists; split; [| reflexivity]; simpl; tauto |].
  repeat match goal with
         | |- setError_size_t _ _ = _ -> _ =>
             rewrite setError_size_t_eq; intros [= <- _]; right;
             do 2 eexists; split; [| reflexivity]; simpl; tauto
         | |- context [setError ?code ?x] => rewrite (setError_eq code x)
         | |- ret _ _ = Ok _ _ -> _ => intros [= <- _]; left; now split
         | |- NullDeref = _ -> _ => discriminate
         | |- OutOfFuel = _ -> _ => discriminate
         | |- context [match ?x with _ => _ end] => destruct x; simpl
         end.
Qed.

Lemma reported_cases (code : Z) (t : GAuth_TCP_Client C F) :
  reported code t = code \/ reported code t = -1000.
Proof. unfold reported. destruct (response_code t); auto. Qed.

(** What [send] returns for a string: its length, or an error of [write]
    with its sign. *)
Lemma send_result_cases (fuel : nat) (s : string) (r : Z)
    (t t' : GAuth_TCP_Client C F) :
  negative_codes K -> strlen s < two_p31 ->
  send B K fuel (Some s) 0 t = Ok r t' ->
  (r = strlen s /\ 0 < r) \/ (r < 0 /\ write_error K r).
Proof.
  intros Hneg Hs. pose proof (strlen_nonneg s) as H0.
  assert (Hint : is_int (strlen s)) by (unfold is_int, two_p31 in *; lia).
  unfold send, bind, ret. simpl.
  rewrite (to_int_of_int _ Hint).
  assert (Hsz : to_size_t (strlen s) = strlen s).
  { apply to_size_t_of_size_t. unfold is_size_t, two_p31, two_p32 in *. lia. }
  rewrite Hsz.
  destruct (write B K fuel (Some (list_byte_of_string s)) (strlen s) t)
    as [w t0| |] eqn:Hw; try discriminate.
  intros [= <- <-].
  destruct (write_result_cases _ _ _ _ _ _ Hw) as [[-> Hnz] | (code & tx & Hin & ->)].
  - left. rewrite (to_int_of_int _ Hint). split; [reflexivity | lia].
  - right. rewrite to_int_to_size_t.
    assert (Hrange : - two_p31 <= reported code tx < 0).
    { destruct (reported_cases code tx) as [-> | ->];
        [now apply Hneg | unfold two_p31; lia]. }
    assert (Hri : is_int (reported code tx)) by (unfold is_int, two_p31 in *; lia).
    rewrite (to_int_of_int _ Hri). split; [lia |].
    unfold write_error.
    destruct (reported_cases code tx) as [-> | ->]; [| now left].
    simpl in Hin. right. intuition auto.
Qed.

(** X6.  With error codes that are negative [int]s and a string shorter
    than 2^31 - 2, [println(s)] returns either the length of [s] plus 2,
    and then [s] is not empty, or a negative value that is one of the error
    values of [write].  For the empty string it returns the error of the
    first [send], and the line break is never sent: the SSL client is the
    one of before the call. *)
Theorem println_result (fuel : nat) (s : string) (t : GAuth_TCP_Client C F) :
  negative_codes K ->
  strlen s + 2 < two_p31 ->
  let failed := ESP_SIGNER_ERROR_TCP_ERROR_SEND_REQUEST_FAILED K in
  (forall r t',
     println B K fuel (Some s) t = Ok r t' ->
     (r = strlen s + 2 /\ 0 < strlen s) \/ (r < 0 /\ write_error K r)) /\
  (strlen s = 0 ->
     println B K fuel (Some s) t = Ok (reported failed t) (recorded failed t) /\
     client (recorded failed t) = client t).
Proof.
  intros Hneg Hs failed. pose proof (strlen_nonneg s) as H0. split.
  - intros r t'. unfold println. unfold bind at 1.
    destruct (send B K fuel (Some s) 0 t) as [len t1| |] eqn:Hsend; try discriminate.
    assert (Hs' : strlen s < two_p31) by lia.
    destruct (send_result_cases fuel s len t t1 Hneg Hs' Hsend) as [[-> Hpos] | [Hlt Herr]].
    + destruct (Z.ltb_spec (strlen s) 0) as [Hbad | _]; [lia |].
      unfold bind.
      destruct (send B K fuel (Some crlf) 0 t1) as [sz t2| |] eqn:Hsend2;
        try discriminate.
      assert (Hc : strlen crlf < two_p31) by reflexivity.
      destruct (send_result_cases fuel crlf sz t1 t2 Hneg Hc Hsend2)
        as [[-> _] | [Hlt Herr]].
      * change (strlen crlf) with 2. simpl. intros [= <- _]. left.
        split; [| assumption].
        apply to_int_of_int. unfold is_int, two_p31 in *. lia.
      * destruct (Z.ltb_spec sz 0) as [_ | Hbad]; [| lia].
        intros [= <- _]. now right.
    + destruct (Z.ltb_spec len 0) as [_ | Hbad]; [| lia].
      intros [= <- _]. now right.
  - intros Hz.
    assert (Hrep : - two_p31 <= reported failed t < 0).
    { destruct (reported_cases failed t) as [-> | ->];
        [apply Hneg; simpl; tauto | unfold two_p31; lia]. }
    split; [| apply recorded_client].
    unfold println. unfold bind at 1.
    pose proof (send_empty fuel s t Hz) as Hsend. cbv zeta in Hsend.
    fold failed in Hsend.
    rewrite Hsend. rewrite to_int_of_int by (unfold is_int, two_p31 in *; lia).
    destruct (Z.ltb_spec (reported failed t) 0) as [_ | Hbad]; [reflexivity | lia].
Qed.

(** ** [release] *)

(** X7.  In an external client build [release()] does nothing.  With the
    internal client it leaves an object without SSL client, host,
    certificate buffer and recorded certificate type, and with the response
    pointer, port, timeout and file system of before.  That object is
    inert: a second [release()] changes nothing, [connected()] is 0,
    [write] returns what [setError] gives for the send-request-failed code,
    and [connect()] dereferences the null client. *)
Theorem release_makes_inert (fuel : nat) (data : option (list byte)) (size : Z)
    (t : GAuth_TCP_Client C F) :
  (internal_client B = false -> release B t = Ok tt t) /\
  (forall c,
     internal_client B = true -> client t = Some c ->
     let t' := released t in
     let failed := ESP_SIGNER_ERROR_TCP_ERROR_SEND_REQUEST_FAILED K in
     release B t = Ok tt t' /\
     client t' = None /\ host t' = EmptyString /\ cert t' = None /\
     certType t' = esp_signer_cert_type_undefined /\
     response_code t' = response_code t /\ port t' = port t /\
     timeoutmSec t' = timeoutmSec t /\ mbfs t' = mbfs t /\
     release B t' = Ok tt t' /\
     connected t' = Ok 0 t' /\
     write B K fuel data size t' = Ok (to_size_t (reported failed t')) (recorded failed t') /\
     connect K fuel t' = NullDeref).
Proof.
  split.
  - intros Hext. unfold release. now rewrite Hext.
  - intros c Hint E t' failed.
    assert (Hrel : release B t = Ok tt t').
    { unfold release. rewrite Hint. run. rewrite E. simpl. now rewrite E. }
    assert (Hnull : client t' = None) by reflexivity.
    split; [exact Hrel |]. repeat (split; [reflexivity |]).
    split; [| split; [| split]].
    + unfold release. rewrite Hint. run. reflexivity.
    + now apply connected_null.
    + now apply write_early; auto.
    + unfold connect, bind. rewrite (connected_null t' Hnull). simpl.
      unfold get, via_client. now destruct (0 <? Z.of_nat (String.length (host t'))).
Qed.

(** ** [networkReady] *)

(** X8.  What [networkReady()] goes by.
    - With the internal client: a connected WiFi is enough, and the object
      is not touched.  Without it, on ESP32 the answer is whether the
      Ethernet interface has an address other than 0.0.0.0; on RP2040, and
      on ESP8266 without the SDK 3 core, the answer is [false] whatever
      Ethernet module is configured.
    - With an external client the WiFi status is not looked at.  Without a
      status callback the answer is the flag last given to
      [setNetworkStatus]; with one, it is what the callback reports, which
      is stored, or the stored flag when the callback reports nothing. *)
Theorem networkReady_cases (t : GAuth_TCP_Client C F) (b : bool) :
  (internal_client B = true ->
   WiFi_status (radio t) = WL_CONNECTED K ->
   networkReady B K t = Ok true t) /\
  (internal_client B = true -> target B = ESP32 ->
   WiFi_status (radio t) <> WL_CONNECTED K ->
   networkReady B K t =
   Ok (negb (String.eqb (c_str (ETH_localIP (radio t))) "0.0.0.0")) t) /\
  (internal_client B = true ->
   WiFi_status (radio t) <> WL_CONNECTED K ->
   target B = PICO_RP2040 \/
   (target B = ESP8266 /\ ESP8266_CORE_SDK_V3_X_X B = false) ->
   exists t1, networkReady B K t = Ok false t1 /\ client t1 = client t) /\
  (internal_client B = false -> esp_signer_network_status_cb t = None ->
   networkReady B K t = Ok (esp_signer_networkStatus t) t /\
   (setNetworkStatus b ;;; networkReady B K) t =
   Ok b (set_esp_signer_networkStatus b t)) /\
  (internal_client B = false ->
   forall cb, esp_signer_network_status_cb t = Some cb ->
     networkReady B K t =
     match cb (radio t) with
     | Some status => Ok status (set_esp_signer_networkStatus status t)
     | None => Ok (esp_signer_networkStatus t) t
     end).
Proof.
  split; [| split; [| split; [| split]]].
  - intros Hint Hw. unfold networkReady, bind, get, ret. rewrite Hint, Hw.
    now rewrite Z.eqb_refl.
  - intros Hint Ht Hw. apply Z.eqb_neq in Hw.
    unfold networkReady, ethLinkUp, bind, get, ret. now rewrite Hint, Hw, Ht.
  - intros Hint Hw Ht. apply Z.eqb_neq in Hw.
    unfold networkReady, ethLinkUp, bind, get, ret, assign. rewrite Hint, Hw.
    destruct Ht as [-> | [-> Hsdk]]; try rewrite Hsdk;
      destruct (eth t) as [e|] eqn:Ee; [| destruct (config t) as [cfg|] | |
                                          destruct (config t) as [cfg|]];
      simpl; rewrite ?Ee; eauto.
  - intros Hext Hcb.
    assert (Hrun : networkReady B K t = Ok (esp_signer_networkStatus t) t).
    { unfold networkReady, bind, get, ret. now rewrite Hext, Hcb. }
    split; [exact Hrun |].
    unfold bind, setNetworkStatus, assign.
    unfold networkReady, bind, get, ret. rewrite Hext. simpl. now rewrite Hcb.
  - intros Hext cb Hcb. unfold networkReady, bind, get, ret, assign.
    rewrite Hext, Hcb. now destruct (cb (radio t)).
Qed.

(** ** [setCertFile], with the clock ready and a name *)

Lemma c_str_idem (s : string) : c_str (c_str s) = c_str s.
Proof.
  induction s as [|a s IH]; [reflexivity |]. simpl.
  destruct (Ascii.eqb a Ascii.zero) eqn:Ea; [reflexivity |].
  simpl. now rewrite Ea, IH.
Qed.

Lemma c_str_empty (s : string) : strlen s = 0 -> c_str s = EmptyString.
Proof.
  unfold strlen. destruct (c_str s); [reflexivity |]. simpl. lia.
Qed.

(** X12.  The name that [setCertFile] opens: empty for an empty name,
    otherwise a name that starts with a slash, the given name itself when
    it starts with one and the given name behind a slash when it does not;
    it is at most one character longer, and naming is idempotent. *)
Theorem cert_filename_slash (name : string) :
  (strlen name = 0 -> cert_filename name = EmptyString) /\
  (0 < strlen name ->
     exists rest,
       cert_filename name = String "/"%char rest /\
       (rest = c_str name \/ String "/"%char rest = c_str name)) /\
  (String.length (cert_filename name) <= S (String.length (c_str name)))%nat /\
  cert_filename (cert_filename name) = cert_filename name.
Proof.
  unfold cert_filename, MB_String_prepend.
  split; [| split; [| split]].
  - intros H. now rewrite (c_str_empty name H).
  - unfold strlen. destruct (c_str name) as [|a r] eqn:Hc; [simpl; lia |].
    intros _. destruct (Ascii.eqb_spec a "/"%char) as [-> | Hne].
    + exists r. auto.
    + exists (String a r). auto.
  - destruct (c_str name) as [|a r]; [simpl; lia |].
    destruct (Ascii.eqb a "/"%char); simpl; lia.
  - pose proof (c_str_idem name) as Hidem.
    destruct (c_str name) as [|a r] eqn:Hc; [reflexivity |].
    assert (Hnz : Ascii.eqb a Ascii.zero = false).
    { destruct name as [|a0 n0]; [discriminate |]. simpl in Hc.
      destruct (Ascii.eqb a0 Ascii.zero) eqn:E0; [discriminate |].
      now injection Hc as <- _. }
    destruct (Ascii.eqb a "/"%char) eqn:Ea.
    + rewrite Hidem. now rewrite Ea.
    + change (c_str (String "/"%char (String a r)))
        with (String "/"%char (c_str (String a r))).
      rewrite Hidem. reflexivity.
Qed.

(** X9.  [setCertFile] when the file cannot be opened ([open] returns a
    negative size), in a build with the internal client, with the clock
    ready and a name: nothing is installed and the recorded type is not
    changed, so the result is [true] exactly when an earlier call had left
    the type 'file'.  The file system is the one after the failed [open]
    and the SSL client has at most been given its buffer sizes. *)
Theorem setCertFile_open_fails (name : string)
    (storageType : mb_fs_mem_storage_type) (t : GAuth_TCP_Client C F)
    (c : C) (f f1 : F) (len : Z) :
  internal_client B = true ->
  clockReady t = true -> 0 < strlen name ->
  client t = Some c -> mbfs t = Some f ->
  fs_open (cert_filename name) storageType f = (len, f1) ->
  len <= -1 ->
  setCertFile B (Some name) storageType t =
  Ok (cert_type_eqb (certType t) esp_signer_cert_type_file)
     (set_mbfs (Some f1) (set_client (Some (resized B t c)) t)).
Proof.
  intros Hint Hclock Hname E Em Hopen Hlen.
  assert (Hn : (0 <? strlen name) = true) by now apply Z.ltb_lt.
  assert (Hl : (-1 <? len) = false) by (apply Z.ltb_ge; lia).
  unfold setCertFile, resized. rewrite Hint.
  destruct (bearssl_target (target B)); run; rewrite ?E; simpl;
    rewrite Hclock, Hn; simpl; rewrite Em, Hopen; simpl; rewrite Hl; simpl;
    try reflexivity.
  destruct t; simpl in *; subst; reflexivity.
Qed.

(** X10.  [setCertFile] on ESP8266 and RP2040 when the file opens, with the
    clock ready and a name: a buffer of the file's size is filled from the
    file if the file system reports data available, the file is closed,
    the buffer becomes the trust anchors of the SSL client as DER data of
    that size, the recorded type is 'file' and the result is [true]. *)
Theorem setCertFile_installs_der (name : string)
    (storageType : mb_fs_mem_storage_type) (t : GAuth_TCP_Client C F)
    (c : C) (f f1 f2 : F) (len : Z) (der : list byte) :
  internal_client B = true -> bearssl_target (target B) = true ->
  clockReady t = true -> 0 < strlen name ->
  client t = Some c -> mbfs t = Some f ->
  fs_open (cert_filename name) storageType f = (len, f1) ->
  0 <= len ->
  read_file storageType (fs_createBuffer len f1) len f1 = (der, f2) ->
  setCertFile B (Some name) storageType t =
  Ok true
     (set_certType esp_signer_cert_type_file
        (set_client
           (Some (cl_setTrustAnchors (X509List_der der len) (resized B t c)))
           (set_mbfs (Some (fs_close storageType f2)) t))).
Proof.
  intros Hint Hb Hclock Hname E Em Hopen Hlen Hread.
  assert (Hn : (0 <? strlen name) = true) by now apply Z.ltb_lt.
  assert (Hl : (-1 <? len) = true) by (apply Z.ltb_lt; lia).
  unfold read_file in Hread.
  destruct (fs_available storageType f1) as [a fa] eqn:Ha.
  unfold setCertFile, install_cert_file_bearssl, read_if_available, resized.
  rewrite Hint, Hb.
  destruct (target B); try discriminate; run; rewrite E; simpl;
    rewrite Hclock, Hn; simpl; rewrite Em, Hopen; simpl; rewrite Hl; simpl;
    rewrite Ha; simpl;
    (destruct (to_bool a); simpl;
     [rewrite Hread | injection Hread as <- <-]; simpl; reflexivity).
Qed.

(** X11.  [setCertFile] on ESP32 when the file opens, with the clock ready
    and a name.  From flash with [MBFS_FLASH_FS] the open file goes to
    [loadCACert] with its size, the type becomes 'file', the file is closed
    and the result is [true].  From flash without [MBFS_FLASH_FS], and from
    SD with neither SD macro, the file is only closed: nothing is installed
    and the result is [true] only if the type was 'file' before.  For any
    other storage type the file is left open and nothing else happens. *)
Theorem setCertFile_esp32 (name : string)
    (storageType : mb_fs_mem_storage_type) (t : GAuth_TCP_Client C F)
    (f f1 : F) (len : Z) :
  internal_client B = true -> target B = ESP32 ->
  clockReady t = true -> 0 < strlen name ->
  mbfs t = Some f ->
  fs_open (cert_filename name) storageType f = (len, f1) ->
  0 <= len ->
  let stale := cert_type_eqb (certType t) esp_signer_cert_type_file in
  let closed := set_mbfs (Some (fs_close storageType f1)) t in
  (storageType = mb_fs_mem_storage_type_flash -> MBFS_FLASH_FS B = true ->
   forall c, client t = Some c ->
     setCertFile B (Some name) storageType t =
     Ok true
        (set_certType esp_signer_cert_type_file
           (set_client (Some (cl_loadCACert (fs_getFlashFile f1) len c))
              closed))) /\
  (storageType = mb_fs_mem_storage_type_flash -> MBFS_FLASH_FS B = false ->
     setCertFile B (Some name) storageType t = Ok stale closed) /\
  (storageType = mb_fs_mem_storage_type_sd ->
   MBFS_ESP32_SDFAT_ENABLED B = false -> MBFS_SD_FS B = false ->
     setCertFile B (Some name) storageType t = Ok stale closed) /\
  (storageType = mb_fs_mem_storage_type_sd ->
   MBFS_ESP32_SDFAT_ENABLED B = false -> MBFS_SD_FS B = true ->
   forall c, client t = Some c ->
     setCertFile B (Some name) storageType t =
     Ok true
        (set_certType esp_signer_cert_type_file
           (set_client (Some (cl_loadCACert (fs_getSDFile f1) len c))
              closed))) /\
  (storageType = mb_fs_mem_storage_type_undefined ->
     setCertFile B (Some name) storageType t =
     Ok stale (set_mbfs (Some f1) t)).
Proof.
  intros Hint Htarget Hclock Hname Em Hopen Hlen stale closed.
  assert (Hn : (0 <? strlen name) = true) by now apply Z.ltb_lt.
  assert (Hl : (-1 <? len) = true) by (apply Z.ltb_lt; lia).
  unfold stale, closed, setCertFile, install_cert_file_esp32.
  rewrite Hint, Htarget.
  repeat split.
  - intros -> Hm c E. run. rewrite Hclock, Hn. simpl.
    rewrite Em, Hopen. simpl. rewrite Hl, Hm. simpl. rewrite E. simpl.
    reflexivity.
  - intros -> Hm. run. rewrite Hclock, Hn. simpl.
    rewrite Em, Hopen. simpl. rewrite Hl, Hm. simpl. reflexivity.
  - intros -> H1 H2. run. rewrite Hclock, Hn. simpl.
    rewrite Em, Hopen. simpl. rewrite Hl, H1, H2. simpl. reflexivity.
  - intros -> H1 H2 c E. run. rewrite Hclock, Hn. simpl.
    rewrite Em, Hopen. simpl. rewrite Hl, H1, H2. simpl. rewrite E. simpl.
    reflexivity.
  - intros ->. run. rewrite Hclock, Hn. simpl.
    rewrite Em, Hopen. simpl. rewrite Hl. simpl. reflexivity.
Qed.

(** ** [setBufferSizes] *)

Lemma to_uint16_small (x : Z) : 0 <= x < 65536 -> to_uint16 x = x.
Proof. intros H. unfold to_uint16. now apply Z.mod_small. Qed.

(** X13.  [setBufferSizes] has an effect only in a build with the internal
    client in which [ESP_8266] or [PICO_RP2040] is defined: without them
    (an ESP8266 build that defines only [ESP8266], an ESP32 build, an
    external client build) the object is unchanged.  With one of them the
    two sizes are stored as [uint16_t], the sizes as given go to the SSL
    client if there is one, and what a later [setCertFile] hands to the SSL
    client are the stored sizes: the given ones when they are below 65536,
    their remainders otherwise. *)
Theorem setBufferSizes_effect (ESP_8266 : bool) (rx tx : Z)
    (t : GAuth_TCP_Client C F) :
  (internal_client B = false \/
   (ESP_8266 = false /\ target B <> PICO_RP2040) ->
     setBufferSizes B ESP_8266 rx tx t = Ok tt t) /\
  (internal_client B = true ->
   ESP_8266 = true \/ target B = PICO_RP2040 ->
     let stored := set_bsslTxSize (to_uint16 tx) (set_bsslRxSize (to_uint16 rx) t) in
     (client t = None -> setBufferSizes B ESP_8266 rx tx t = Ok tt stored) /\
     (forall c, client t = Some c ->
        let t' := set_client (Some (cl_setBufferSizes rx tx c)) stored in
        setBufferSizes B ESP_8266 rx tx t = Ok tt t' /\
        (forall c', resized B t' c' =
           if bearssl_target (target B)
           then cl_setBufferSizes (to_uint16 rx) (to_uint16 tx) c'
           else c') /\
        (0 <= rx < 65536 -> 0 <= tx < 65536 ->
         bearssl_target (target B) = true ->
         forall c', resized B t' c' = cl_setBufferSizes rx tx c'))).
Proof.
  split.
  - intros [Hext | [-> Hpico]]; unfold setBufferSizes.
    + now rewrite Hext.
    + destruct (internal_client B); [| reflexivity].
      destruct (target B); try reflexivity. now elim Hpico.
  - intros Hint Hmacro stored.
    assert (Hguard : (internal_client B &&
              (ESP_8266 || match target B with PICO_RP2040 => true | _ => false end))
            = true).
    { rewrite Hint. destruct Hmacro as [-> | ->]; [reflexivity |].
      now rewrite Bool.orb_true_r. }
    unfold setBufferSizes. rewrite Hguard. split.
    + intros E. run. rewrite E. reflexivity.
    + intros c E. split; [| split].
      * run. rewrite E. simpl. rewrite E. reflexivity.
      * intros c'. unfold resized.
        destruct (bearssl_target (target B)); reflexivity.
      * intros Hrx Htx Hb c'. unfold resized. rewrite Hb. simpl.
        now rewrite (to_uint16_small rx Hrx), (to_uint16_small tx Htx).
Qed.

(** ** [ethLinkUp] *)


End Properties.

(** ** The signer's retry state *)


(** * Concrete runs *)

(** The pending input of the scripted client shrinks with each read. *)
Lemma mock_size_decreases (c : Mock.client) (n : Z) (c1 : Mock.client) :
  cl_available c = (n, c1) -> 0 < n ->
  (List.length (Mock.rx (snd (cl_read c1))) < List.length (Mock.rx c))%nat.
Proof.
  intros [= <- <-] Hn. unfold Mock.len in Hn. simpl.
  destruct (Mock.rx c); simpl in *; lia.
Qed.

(** So [flush] finishes on it within its length plus one rounds, and every
    [write] returns. *)
Lemma mock_flush_terminates (c : Mock.client) :
  exists c', flush_loop (S (List.length (Mock.rx c))) c = Some c'.
Proof.
  exact (flush_loop_terminates (fun s => List.length (Mock.rx s))
           mock_size_decreases c).
Qed.

Lemma mock_write_returns (B : Build) (K : Constants) (data : option (list byte))
    (size : Z) (t : TCP) :
  exists fuel w t',
    forall fuel', (fuel <= fuel')%nat -> write B K fuel' data size t = Ok w t'.
Proof.
  exact (write_returns B K (fun s => List.length (Mock.rx s)) mock_size_decreases
           data size t).
Qed.

(** [connect] on a connected client drains the three pending bytes. *)
Example connect_reuses :
  connect sample_constants 4 (begun (set_client (Some online) new_esp32)) =
  Ok true (begun (set_client
                    (Some (Mock.mk_client true true [] [] two_p31 []))
                    new_esp32)).
Proof. vm_compute. reflexivity. Qed.

(** On ESP8266, with the clock marked ready, the certificate file is read
    and becomes the trust anchors; the result is [true]. *)
Example setCertFile_installs :
  match setCertFile esp8266_build (Some "ca.der"%string) mb_fs_mem_storage_type_flash
          (set_clockReady true (set_mbfs (Some disk) new_esp8266)) with
  | Ok b t' =>
      b = true /\
      certType t' = esp_signer_cert_type_file /\
      option_map Mock.log (client t') =
        Some [Mock.SetTrustAnchors (X509List_der ["0"%byte; "1"%byte] 2);
              Mock.SetBufferSizes 512 512] /\
      option_map Mock.calls (mbfs t') = Some 4%nat
  | _ => False
  end.
Proof. vm_compute. repeat split. Qed.

(** The same call before the clock is marked ready touches no file. *)
Example setCertFile_waits_for_clock :
  match setCertFile esp8266_build (Some "ca.der"%string) mb_fs_mem_storage_type_flash
          (set_mbfs (Some disk) new_esp8266) with
  | Ok b t' =>
      b = false /\
      certType t' = esp_signer_cert_type_undefined /\
      mbfs t' = Some disk
  | _ => False
  end.
Proof. vm_compute. repeat split. Qed.

(** ** [write]: C1 *)

(** C1 does not hold as stated.  A new object has no response pointer, and
    [write(NULL, 0)] on it returns 4294966296, which is -1000 as a [size_t]
    whatever the error codes are: not the send-request-failed code, neither
    as an [int] nor as a [size_t].  On the same kind of object a write that
    sends all three bytes returns 3 and records nothing. *)
Lemma write_unregistered_counterexample :
  response_code new_esp32 = None /\
  write esp32_build sample_constants 0 None 0 new_esp32 = Ok 4294966296 new_esp32 /\
  4294966296 <> ESP_SIGNER_ERROR_TCP_ERROR_SEND_REQUEST_FAILED sample_constants /\
  4294966296 <>
    to_size_t (ESP_SIGNER_ERROR_TCP_ERROR_SEND_REQUEST_FAILED sample_constants) /\
  (forall K : Constants,
     write esp32_build K 0 None 0 new_esp32 = Ok (to_size_t (-1000)) new_esp32) /\
  match write esp32_build sample_constants 1 (Some abc) 3
          (set_client (Some online) new_esp32) with
  | Ok w t' => w = 3 /\ response_code t' = None
  | _ => False
  end.
Proof.
  split; [reflexivity |]. split; [vm_compute; reflexivity |].
  split; [vm_compute; discriminate |]. split; [vm_compute; discriminate |].
  split; [intros K; vm_compute; reflexivity |].
  vm_compute. split; reflexivity.
Qed.

(** [write_spec] at work: after [begin] with a response pointer, three bytes
    written to a connected client give 3, the HTTP-OK code in the response
    and the bytes in the client's output; a null buffer gives the
    send-request-failed code as a [size_t]. *)
Lemma write_spec_witness :
  is_size_t 3 /\
  write esp32_build sample_constants 1 (Some abc) 3
    (begun (set_client (Some online) new_esp32)) =
  Ok 3 (set_response_code (Some 200)
          (begun (set_client
                    (Some (Mock.mk_client true true abc abc two_p31 []))
                    new_esp32))) /\
  write esp32_build sample_constants 1 None 3
    (begun (set_client (Some online) new_esp32)) =
  Ok 4294967294 (set_response_code (Some (-2))
                   (begun (set_client (Some online) new_esp32))).
Proof.
  assert (H3 : is_size_t 3) by (unfold is_size_t, two_p32; lia).
  split; [exact H3 |].
  destruct (write_spec esp32_build sample_constants 1 (Some abc) 3
              (begun (set_client (Some online) new_esp32)) H3) as [_ Hrun].
  destruct (write_spec esp32_build sample_constants 1 None 3
              (begun (set_client (Some online) new_esp32)) H3) as [Hnull _].
  split; [| exact (Hnull (or_introl eq_refl))].
  destruct (Hrun abc online eq_refl eq_refl) as (ready & t1 & Hnet & _ & _ & Hready);
    [discriminate |].
  vm_compute in Hnet. injection Hnet as <- <-.
  destruct (Hready eq_refl 1 online eq_refl) as [_ Hwrite].
  assert (H10 : 1 <> 0) by discriminate.
  destruct (Hwrite _ (or_introl (conj H10 eq_refl))) as (c3 & Hc3 & Hfin).
  injection Hc3 as <-.
  destruct (Hfin 3 (Mock.mk_client true true abc abc two_p31 []) eq_refl H3)
    as [_ Hok].
  exact (Hok eq_refl).
Defined.

(** ** [connect]: C2 *)

(** [connect_spec] at work: the server refuses the connection, no response
    pointer is registered, and [connect()] returns [true]; so do the
    [int connect(host, port)] overloads, with 1.  With a pointer registered
    the connection-refused code is recorded, and the result is [true] all
    the same. *)
Lemma connect_spec_witness :
  connect sample_constants 1 (set_client (Some unreachable) new_esp32) =
  Ok true (set_client
             (Some (Mock.mk_client false false [] [] two_p31 [Mock.DialIP 0 0]))
             new_esp32) /\
  connect sample_constants 1 (begun (set_client (Some unreachable) new_esp32)) =
  Ok true (set_response_code (Some (-1))
             (begun (set_client
                       (Some (Mock.mk_client false false [] [] two_p31
                                [Mock.Dial "oauth2.googleapis.com" 443]))
                       new_esp32))).
Proof.
  assert (Hk : cl_connected unreachable = (0, unreachable)) by reflexivity.
  split.
  - assert (Hd : dial (set_client (Some unreachable) new_esp32) unreachable =
                 (0, Mock.mk_client false false [] [] two_p31 [Mock.DialIP 0 0]))
      by reflexivity.
    destruct (connect_spec sample_constants 1
                (set_client (Some unreachable) new_esp32)
                unreachable unreachable 0 eq_refl Hk) as [_ Hdial].
    destruct (Hdial eq_refl _ _ Hd) as [Hfail _].
    destruct (Hfail eq_refl) as [_ Htrue].
    exact (Htrue (or_introl eq_refl)).
  - assert (Hd : dial (begun (set_client (Some unreachable) new_esp32)) unreachable =
                 (0, Mock.mk_client false false [] [] two_p31
                       [Mock.Dial "oauth2.googleapis.com" 443]))
      by reflexivity.
    destruct (connect_spec sample_constants 1
                (begun (set_client (Some unreachable) new_esp32))
                unreachable unreachable 0 eq_refl Hk) as [_ Hdial].
    destruct (Hdial eq_refl _ _ Hd) as [Hfail _].
    destruct (Hfail eq_refl) as [_ Htrue].
    refine (Htrue (or_intror _)). discriminate.
Defined.

(** The [int] overload passes the [true] of a failed dial on as 1. *)
Example connect_host_reports_success :
  connect_host sample_constants 1 "unreachable.example" 443
    (set_client (Some unreachable) new_esp32) =
  Ok 1 (set_port 443
          (set_host "unreachable.example"
             (set_client
                (Some (Mock.mk_client false false [] [] two_p31
                         [Mock.Dial "unreachable.example" 443]))
                new_esp32))).
Proof. vm_compute. reflexivity. Qed.

(** [write] after a failed dial: [connect()] reported success, so the bytes
    go to the client that is not connected, and the error is the
    send-request-failed code, not the connection-refused one. *)
Example write_after_failed_dial :
  write esp32_build sample_constants 1 (Some abc) 3
    (begun (set_client (Some (Mock.mk_client false false [] [] 0 [])) new_esp32)) =
  Ok 4294967294
     (set_response_code (Some (-2))
        (begun (set_client
                  (Some (Mock.mk_client false false [] [] 0
                           [Mock.Dial "oauth2.googleapis.com" 443]))
                  new_esp32))).
Proof. vm_compute. reflexivity. Qed.

(** ** A null client: C8 *)

(** [null_client_is_safe] at work on the new object of an external client
    build, whose client and response pointers are both null. *)
Lemma null_client_witness :
  client new_external = None /\
  connected new_external = Ok 0 new_external /\
  peek new_external = Ok 0 new_external /\
  stop new_external = Ok tt new_external /\
  flush 0 new_external = Ok tt new_external /\
  available sample_constants new_external = Ok (-1000) new_external /\
  read sample_constants new_external = Ok (-1000) new_external /\
  readBytes sample_constants abc 3 new_external = Ok (-1000, abc) new_external.
Proof.
  pose proof (null_client_is_safe external_build sample_constants 0
                new_external abc 3 3 eq_refl) as H.
  cbv zeta in H.
  destruct H as (H1 & _ & H3 & H4 & H5 & _ & H7 & H8 & H9 & _).
  repeat (split; [first [reflexivity | assumption] |]).
  exact H9.
Defined.

(** With a response pointer registered the same calls give the
    connection-refused code and store it. *)
Example null_client_with_response :
  available sample_constants (begun new_external) =
    Ok (-1) (set_response_code (Some (-1)) (begun new_external)) /\
  readBytes sample_constants abc 3 (begun new_external) =
    Ok (-1, abc) (set_response_code (Some (-1)) (begun new_external)).
Proof. split; vm_compute; reflexivity. Qed.

(** ** [readBytes]: C5 *)

(** C5 does not hold as stated.  The new object of an external client build
    has neither a client nor a response pointer, and [readBytes] on it
    returns -1000 whatever the error codes are, not the connection-refused
    code.  On an object with a client and no response pointer a read of
    three bytes returns 3 and records nothing. *)
Lemma readBytes_unregistered_counterexample :
  client new_external = None /\ response_code new_external = None /\
  readBytes sample_constants [] 3 new_external = Ok (-1000, []) new_external /\
  -1000 <> ESP_SIGNER_ERROR_TCP_ERROR_CONNECTION_REFUSED sample_constants /\
  (forall K : Constants,
     readBytes K [] 3 new_external = Ok (-1000, []) new_external) /\
  match readBytes sample_constants [] 3 (set_client (Some online) new_esp32) with
  | Ok r t' => r = (3, abc) /\ response_code t' = None
  | _ => False
  end.
Proof.
  split; [reflexivity |]. split; [reflexivity |].
  split; [vm_compute; reflexivity |]. split; [vm_compute; discriminate |].
  split; [intros K; vm_compute; reflexivity |].
  vm_compute. split; reflexivity.
Qed.

(** [readBytes_spec] at work: with a response pointer, reading the three
    pending bytes gives 3, the bytes and the HTTP-OK code; asking for five
    gives the response-read-failed code. *)
Lemma readBytes_spec_witness :
  is_int 3 /\ is_int 5 /\
  readBytes sample_constants [] 3 (begun (set_client (Some online) new_esp32)) =
  Ok (3, abc)
     (set_response_code (Some 200)
        (begun (set_client (Some (Mock.mk_client true true [] [] two_p31 []))
                  new_esp32))) /\
  readBytes sample_constants [] 5 (begun (set_client (Some online) new_esp32)) =
  Ok (-4, abc)
     (set_response_code (Some (-4))
        (begun (set_client (Some (Mock.mk_client true true [] [] two_p31 []))
                  new_esp32))).
Proof.
  assert (H3 : is_int 3) by (unfold is_int, two_p31; lia).
  assert (H5 : is_int 5) by (unfold is_int, two_p31; lia).
  split; [exact H3 |]. split; [exact H5 |]. split.
  - destruct (readBytes_spec sample_constants [] 3 3
                (begun (set_client (Some online) new_esp32)) H3)
      as (_ & Hread & _).
    assert (Hr : cl_readBytes [] (to_size_t 3) online =
                 (3, abc, Mock.mk_client true true [] [] two_p31 []))
      by reflexivity.
    destruct (Hread online 3 abc _ eq_refl Hr) as (_ & Hok & _).
    exact (Hok eq_refl).
  - destruct (readBytes_spec sample_constants [] 5 5
                (begun (set_client (Some online) new_esp32)) H5)
      as (_ & Hread & _).
    assert (Hr : cl_readBytes [] (to_size_t 5) online =
                 (3, abc, Mock.mk_client true true [] [] two_p31 []))
      by reflexivity.
    destruct (Hread online 3 abc _ eq_refl Hr) as (Hshort & _).
    refine (Hshort _). discriminate.
Defined.

(** ** The wrappers: C10 *)

(** [wrappers_agree] at work: [print("abc")] and [send("abc", 0)] are
    [write] of the three bytes, and give 3. *)
Lemma wrappers_agree_witness :
  strlen "abc" < two_p32 /\
  print esp32_build sample_constants 1 (Some "abc"%string)
    (begun (set_client (Some online) new_esp32)) =
  send esp32_build sample_constants 1 (Some "abc"%string) 0
    (begun (set_client (Some online) new_esp32)) /\
  send esp32_build sample_constants 1 (Some "abc"%string) 0
    (begun (set_client (Some online) new_esp32)) =
  Ok 3 (set_response_code (Some 200)
          (begun (set_client
                    (Some (Mock.mk_client true true abc abc two_p31 []))
                    new_esp32))).
Proof.
  assert (Hs : strlen "abc" < two_p32) by reflexivity.
  split; [exact Hs |].
  destruct (wrappers_agree esp32_build sample_constants 1
              (begun (set_client (Some online) new_esp32))
              "a"%byte (Some "abc"%string) "abc"%string [] 0 Hs)
    as (_ & Hprint & _ & Hsend & _).
  split; [exact Hprint |].
  assert (Hw : write esp32_build sample_constants 1
                 (Some (list_byte_of_string "abc")) (strlen "abc")
                 (begun (set_client (Some online) new_esp32)) =
               Ok 3 (set_response_code (Some 200)
                       (begun (set_client
                                 (Some (Mock.mk_client true true abc abc two_p31 []))
                                 new_esp32))))
    by (vm_compute; reflexivity).
  exact (proj1 (Hsend _ _ Hw)).
Defined.

(** A failed [send] gives the error code as the [int] it is, where [write]
    gives it as a [size_t]. *)
Example send_error_is_negative :
  send esp32_build sample_constants 1 (Some ""%string) 0
    (begun (set_client (Some online) new_esp32)) =
  Ok (-2) (set_response_code (Some (-2))
             (begun (set_client (Some online) new_esp32))) /\
  write esp32_build sample_constants 1 (Some []) 0
    (begun (set_client (Some online) new_esp32)) =
  Ok 4294967294 (set_response_code (Some (-2))
                   (begun (set_client (Some online) new_esp32))).
Proof. split; vm_compute; reflexivity. Qed.

(** ** [setCACert]: C4 *)

(** C4 does not hold as stated.  In an external client build [setCACert]
    with a certificate leaves the recorded type 'undefined' and the client
    without any call; with a null pointer the type stays 'undefined' too and
    the connection is not stopped. *)
Lemma setCACert_external_counterexample :
  setCACert external_build (Some pem) external_online = Ok tt external_online /\
  setCACert external_build None external_online = Ok tt external_online /\
  getCertType external_online = Ok esp_signer_cert_type_undefined external_online /\
  esp_signer_cert_type_undefined <> esp_signer_cert_type_data /\
  esp_signer_cert_type_undefined <> esp_signer_cert_type_none /\
  option_map Mock.log (client external_online) = Some [] /\
  option_map Mock.up (client external_online) = Some true.
Proof. repeat split; discriminate. Qed.

(** With the internal client, on ESP32: a certificate is installed and the
    type is 'data'; a null pointer stops the connection, clears the
    certificate, switches to insecure mode and makes the type 'none'. *)
Example setCACert_internal :
  match setCACert esp32_build (Some pem) (set_client (Some online) new_esp32) with
  | Ok _ t' =>
      certType t' = esp_signer_cert_type_data /\
      option_map Mock.log (client t') = Some [Mock.SetCACert (Some pem)]
  | _ => False
  end /\
  match setCACert esp32_build None (set_client (Some online) new_esp32) with
  | Ok _ t' =>
      certType t' = esp_signer_cert_type_none /\
      option_map Mock.up (client t') = Some false /\
      option_map Mock.log (client t') =
        Some [Mock.SetInsecure; Mock.SetCACert None; Mock.Stop]
  | _ => False
  end.
Proof. vm_compute. repeat split. Qed.

(** ** [setTimeout]: C6 *)

(** C6 does not hold as stated.  In an external client build
    [setTimeout(5000)] stores 5000 and returns 1, and the client is the one
    of before the call: no call reached it. *)
Lemma setTimeout_external_counterexample :
  setTimeout external_build 5000 external_online =
    Ok 1 (set_timeoutmSec 5000 external_online) /\
  client (set_timeoutmSec 5000 external_online) = Some online /\
  Mock.log online = [].
Proof. repeat split. Qed.

(** With the internal client the timeout reaches the SSL client: in seconds
    on ESP32, in milliseconds on ESP8266; and [connect] hands the stored
    milliseconds over after the dial. *)
Example setTimeout_internal :
  match setTimeout esp32_build 5000 new_esp32 with
  | Ok _ t' =>
      timeoutmSec t' = 5000 /\
      option_map Mock.log (client t') = Some [Mock.SetTimeout 5] /\
      match connect sample_constants 1 t' with
      | Ok b t'' =>
          b = true /\
          option_map Mock.log (client t'') =
            Some [Mock.SetTimeout 5000; Mock.DialIP 0 0; Mock.SetTimeout 5]
      | _ => False
      end
  | _ => False
  end /\
  match setTimeout esp8266_build 5000 new_esp8266 with
  | Ok z t' =>
      z = 1 /\ option_map Mock.log (client t') = Some [Mock.SetTimeout 5000]
  | _ => False
  end.
Proof. vm_compute. repeat split. Qed.

(** ** [setError] and [begin]: C9 *)

(** [setError_and_begin] at work: on a new object [setError] answers -1000
    and changes nothing; after [begin] with a response pointer it stores the
    code and returns it. *)
Lemma setError_and_begin_witness :
  setError 7 new_esp32 = Ok (-1000) new_esp32 /\
  setError 7 (begun new_esp32) = Ok 7 (set_response_code (Some 7) (begun new_esp32)) /\
  begin "oauth2.googleapis.com" 443 (Some 0) new_esp32 = Ok true (begun new_esp32).
Proof.
  destruct (setError_and_begin new_esp32 7 "oauth2.googleapis.com" 443 (Some 0))
    as (Hnull & _ & (t' & Hbegin & -> & _) & _).
  destruct (setError_and_begin (begun new_esp32) 7 "" 0 None)
    as (_ & Hset & _).
  split; [exact (Hnull eq_refl) |]. split; [exact (Hset 0 eq_refl) |].
  exact Hbegin.
Defined.

(** ** [setCertFile]: C3 *)

(** [setCertFile_spec] at work on ESP8266.  Before the clock is marked
    ready the call returns and leaves the file system and the recorded type
    alone; the call that installs the file was made with the clock ready and
    a name that is not empty. *)
Lemma setCertFile_spec_witness :
  (exists b t',
     setCertFile esp8266_build (Some "ca.der"%string) mb_fs_mem_storage_type_flash
       (set_mbfs (Some disk) new_esp8266) = Ok b t' /\
     (b = true <-> certType t' = esp_signer_cert_type_file) /\
     mbfs t' = Some disk /\
     certType t' = esp_signer_cert_type_undefined) /\
  clockReady (set_clockReady true (set_mbfs (Some disk) new_esp8266)) = true.
Proof.
  split.
  - destruct (setCertFile_spec esp8266_build (Some "ca.der"%string)
                mb_fs_mem_storage_type_flash (set_mbfs (Some disk) new_esp8266))
      as (Hres & Hidle & _).
    assert (Hq : no_file_wanted (Some "ca.der"%string) (set_mbfs (Some disk) new_esp8266))
      by (left; reflexivity).
    destruct (Hidle Hq) as [Hframe Hret].
    destruct Hret as (b & t' & Hrun); [left; discriminate |].
    exists b, t'. split; [exact Hrun |]. split; [exact (Hres b t' Hrun) |].
    destruct (Hframe b t' Hrun) as (Hm & Ht & _). split; assumption.
  - destruct (setCertFile_spec esp8266_build (Some "ca.der"%string)
                mb_fs_mem_storage_type_flash
                (set_clockReady true (set_mbfs (Some disk) new_esp8266)))
      as (_ & _ & Honly & _).
    destruct (setCertFile esp8266_build (Some "ca.der"%string)
                mb_fs_mem_storage_type_flash
                (set_clockReady true (set_mbfs (Some disk) new_esp8266)))
      as [b t'| |] eqn:Hrun; try (vm_compute in Hrun; discriminate).
    refine (proj1 (Honly b t' eq_refl _)).
    right. left. vm_compute in Hrun. injection Hrun as _ <-. discriminate.
Defined.

(** ** [setCACert] and [setTimeout] with the internal client: C4, C6 *)

(** [setCACert_spec] at work on ESP32: the certificate reaches the SSL
    client and the recorded type is 'data'. *)
Lemma setCACert_spec_witness :
  exists t',
    setCACert esp32_build (Some pem) (set_client (Some online) new_esp32) = Ok tt t' /\
    getCertType t' = Ok esp_signer_cert_type_data t' /\
    client t' = Some (Mock.logged (Mock.SetCACert (Some pem)) online).
Proof.
  destruct (setCACert_spec esp32_build (Some pem) (set_client (Some online) new_esp32))
    as (_ & _ & Hint).
  destruct (Hint online eq_refl eq_refl) as (t' & Hrun & Hget & _ & _ & _ & _ & Htype & Hc).
  exists t'. split; [exact Hrun |]. split; [| exact Hc].
  rewrite Hget. now rewrite Htype.
Defined.

(** [setTimeout_spec] at work on ESP32: 5000 ms are stored and 5 s go to
    the SSL client, whose answer is the result. *)
Lemma setTimeout_spec_witness :
  timeoutmSec new_esp32 = 10000 /\
  setTimeout esp32_build 5000 new_esp32 =
  Ok 0 (set_client (Some (Mock.logged (Mock.SetTimeout 5) Mock.fresh))
          (set_timeoutmSec 5000 new_esp32)).
Proof.
  destruct (setTimeout_spec esp32_build sample_constants 5000 new_esp32 wifi_up)
    as (Hdefault & _ & _ & Hesp32 & _).
  split; [exact Hdefault |].
  exact (Hesp32 Mock.fresh 0 (Mock.logged (Mock.SetTimeout 5) Mock.fresh)
           eq_refl eq_refl eq_refl eq_refl).
Defined.

(** * Further concrete runs *)

(** ** [flush] *)

(** [flush_drains] at work: [flush] on the client with three pending bytes
    returns with fuel 4 and leaves a client with nothing to read. *)
Lemma flush_drains_witness :
  exists c',
    flush 4 (set_client (Some online) new_esp32) =
    Ok tt (set_client (Some c') (set_client (Some online) new_esp32)) /\
    Mock.rx c' = [].
Proof.
  destruct (flush_drains (fun s => List.length (Mock.rx s))
              (set_client (Some online) new_esp32) online
              mock_size_decreases eq_refl)
    as (c' & Hrun & c0 & n & Hav & Hn).
  exists c'. split.
  - apply Hrun. simpl. lia.
  - injection Hav as <- <-. unfold Mock.len in Hn.
    destruct (Mock.rx c0); [reflexivity | simpl in Hn; lia].
Defined.

(** ** Null pointers *)

(** [write_never_faults] at work: in an external client build without a
    client [write] does not fault, and on the scripted client it returns
    for all fuel from some point on. *)
Lemma write_never_faults_witness :
  write external_build sample_constants 0 (Some abc) 3 new_external <> NullDeref /\
  exists fuel w t',
    forall fuel', (fuel <= fuel')%nat ->
      write esp32_build sample_constants fuel' (Some abc) 3
        (begun (set_client (Some online) new_esp32)) = Ok w t'.
Proof.
  split.
  - exact (proj1 (write_never_faults external_build sample_constants 0
                    (Some abc) 3 new_external)).
  - exact (proj2 (write_never_faults esp32_build sample_constants 0
                    (Some abc) 3 (begun (set_client (Some online) new_esp32)))
             (fun s => List.length (Mock.rx s)) mock_size_decreases).
Defined.


(** ** The [connect] overloads *)

(** [connect_ip_dials_stored_host] at work: after [begin] with a host name,
    [connect(ip, 8443)] stores the address and the port and dials the host
    name on the new port; the address never reaches the SSL client. *)
Lemma connect_ip_dials_stored_host_witness :
  host (begun new_esp32) <> EmptyString /\
  connect_ip sample_constants 1 167772161 8443 (begun new_esp32) =
  Ok 1 (set_client
          (Some (Mock.mk_client true true [] [] two_p31
                   [Mock.SetTimeout 10000;
                    Mock.Dial "oauth2.googleapis.com" 8443]))
          (set_port 8443 (set_ip 167772161 (begun new_esp32)))).
Proof.
  assert (Hh : host (begun new_esp32) <> EmptyString) by discriminate.
  assert (Hk : cl_connected Mock.fresh = (0, Mock.fresh)) by reflexivity.
  assert (Hc : cl_connect (host (begun new_esp32)) 8443 Mock.fresh =
               (1, Mock.mk_client true true [] [] two_p31
                     [Mock.Dial "oauth2.googleapis.com" 8443]))
    by reflexivity.
  split; [exact Hh |].
  pose proof (connect_ip_dials_stored_host sample_constants 1 167772161 8443
                (begun new_esp32) Mock.fresh Mock.fresh _ 1 eq_refl Hh Hk Hc)
    as H.
  cbv zeta in H. destruct H as (_ & _ & _ & Hok).
  assert (H10 : 1 <> 0) by discriminate.
  exact (Hok H10 0
           (Mock.mk_client true true [] [] two_p31
              [Mock.SetTimeout 10000; Mock.Dial "oauth2.googleapis.com" 8443])
           1 _ eq_refl eq_refl).
Defined.

(** [write_after_failed_dial_goes_on] at work: the server refuses the
    connection, [write] goes on to the client's [write], which takes no
    byte, and the error is the send-request-failed code. *)
Lemma write_after_failed_dial_goes_on_witness :
  write esp32_build sample_constants 1 (Some abc) 3
    (begun (set_client (Some (Mock.mk_client false false [] [] 0 [])) new_esp32)) =
  Ok 4294967294
     (set_response_code (Some (-2))
        (begun (set_client
                  (Some (Mock.mk_client false false [] [] 0
                           [Mock.Dial "oauth2.googleapis.com" 443]))
                  new_esp32))).
Proof.
  pose (c := Mock.mk_client false false [] [] 0 []).
  pose (c4 := Mock.mk_client false false [] [] 0
                [Mock.Dial "oauth2.googleapis.com" 443]).
  assert (H30 : 3 <> 0) by discriminate.
  assert (Hnet : networkReady esp32_build sample_constants
                   (begun (set_client (Some c) new_esp32)) =
                 Ok true (begun (set_client (Some c) new_esp32)))
    by reflexivity.
  assert (Hk : cl_connected c = (0, c)) by reflexivity.
  assert (Hd : dial (begun (set_client (Some c) new_esp32)) c = (0, c4))
    by reflexivity.
  assert (Hrep : reported (ESP_SIGNER_ERROR_TCP_ERROR_CONNECTION_REFUSED sample_constants)
                   (begun (set_client (Some c) new_esp32)) <> 0)
    by discriminate.
  assert (Hw : cl_write abc 3 c4 = (0, c4)) by reflexivity.
  exact (write_after_failed_dial_goes_on esp32_build sample_constants 1 abc 3
           (begun (set_client (Some c) new_esp32))
           (begun (set_client (Some c) new_esp32))
           c c c c4 c4 0 eq_refl H30 Hnet Hk Hk Hd Hrep Hw).
Defined.

(** ** [send], [print] and [println] *)

(** [send_empty_and_null] at work: the empty string gives the
    send-request-failed code, -2 here, and a null string with a length does
    too; a null string without a length faults. *)
Lemma send_empty_and_null_witness :
  strlen "" = 0 /\
  send esp32_build sample_constants 1 (Some ""%string) 0
    (begun (set_client (Some online) new_esp32)) =
  Ok (-2) (set_response_code (Some (-2))
             (begun (set_client (Some online) new_esp32))) /\
  print esp32_build sample_constants 1 None
    (begun (set_client (Some online) new_esp32)) = NullDeref /\
  send esp32_build sample_constants 1 None 5
    (begun (set_client (Some online) new_esp32)) =
  Ok (-2) (set_response_code (Some (-2))
             (begun (set_client (Some online) new_esp32))).
Proof.
  pose proof (send_empty_and_null esp32_build sample_constants 1 ""%string 5
                (begun (set_client (Some online) new_esp32)) eq_refl) as H.
  cbv zeta in H. destruct H as (H1 & _ & _ & _ & H5 & H6).
  assert (H50 : 5 <> 0) by discriminate.
  split; [reflexivity |]. split; [exact H1 |]. split; [exact H5 |].
  exact (H6 H50).
Defined.

(** The sample error codes are negative [int]s. *)
Lemma sample_codes_negative : negative_codes sample_constants.
Proof.
  intros code [<- | [<- | [<- | []]]]; unfold two_p31; simpl; lia.
Qed.

(** [println_result] at work: the empty line is not sent, and whatever
    [println("abc")] returns is 5 or negative. *)
Lemma println_result_witness :
  negative_codes sample_constants /\ strlen "abc" + 2 < two_p31 /\
  println esp32_build sample_constants 1 (Some ""%string)
    (begun (set_client (Some online) new_esp32)) =
  Ok (-2) (set_response_code (Some (-2))
             (begun (set_client (Some online) new_esp32))) /\
  (forall r t',
     println esp32_build sample_constants 1 (Some "abc"%string)
       (begun (set_client (Some online) new_esp32)) = Ok r t' ->
     r = 5 \/ r < 0).
Proof.
  assert (H0 : strlen "" + 2 < two_p31) by reflexivity.
  assert (H3 : strlen "abc" + 2 < two_p31) by reflexivity.
  split; [exact sample_codes_negative |]. split; [exact H3 |]. split.
  - pose proof (println_result esp32_build sample_constants 1 ""%string
                  (begun (set_client (Some online) new_esp32))
                  sample_codes_negative H0) as H.
    cbv zeta in H. exact (proj1 (proj2 H eq_refl)).
  - intros r t' Hrun.
    pose proof (println_result esp32_build sample_constants 1 "abc"%string
                  (begun (set_client (Some online) new_esp32))
                  sample_codes_negative H3) as H.
    cbv zeta in H. destruct (proj1 H r t' Hrun) as [[Hr _] | [Hr _]].
    + left. exact Hr.
    + right. exact Hr.
Defined.

(** A line that is sent counts its two line-end characters. *)
Example println_counts_line_end :
  match println esp32_build sample_constants 1 (Some "abc"%string)
          (begun (set_client (Some online) new_esp32)) with
  | Ok r t' =>
      r = 5 /\
      option_map Mock.tx (client t') =
        Some ["a"%byte; "b"%byte; "c"%byte; "013"%byte; "010"%byte]
  | _ => False
  end.
Proof. vm_compute. repeat split. Qed.

(** ** [release] and [networkReady] *)

(** [release_makes_inert] at work on ESP32: after [release] the object has
    no client, [write] gives the send-request-failed code and [connect]
    faults. *)
Lemma release_makes_inert_witness :
  release esp32_build (begun new_esp32) = Ok tt (released (begun new_esp32)) /\
  client (released (begun new_esp32)) = None /\
  write esp32_build sample_constants 1 (Some abc) 3 (released (begun new_esp32)) =
  Ok 4294967294 (set_response_code (Some (-2)) (released (begun new_esp32))) /\
  connect sample_constants 1 (released (begun new_esp32)) = NullDeref.
Proof.
  pose proof (proj2 (release_makes_inert esp32_build sample_constants 1
                       (Some abc) 3 (begun new_esp32))
                Mock.fresh eq_refl eq_refl) as H.
  cbv zeta in H.
  destruct H as (H1 & H2 & _ & _ & _ & _ & _ & _ & _ & _ & _ & H12 & H13).
  split; [exact H1 |]. split; [exact H2 |]. split; [exact H12 | exact H13].
Defined.

(** [networkReady_cases] at work: with the WiFi connected the network is
    ready; in an external client build without a status callback the flag
    that [setNetworkStatus] stored is the answer. *)
Lemma networkReady_cases_witness :
  networkReady esp32_build sample_constants new_esp32 = Ok true new_esp32 /\
  networkReady external_build sample_constants new_external = Ok false new_external /\
  (setNetworkStatus true ;;; networkReady external_build sample_constants)
    new_external =
  Ok true (set_esp_signer_networkStatus true new_external).
Proof.
  destruct (networkReady_cases esp32_build sample_constants new_esp32 true)
    as (Hwifi & _).
  destruct (networkReady_cases external_build sample_constants new_external true)
    as (_ & _ & _ & Hext & _).
  destruct (Hext eq_refl eq_refl) as [Hflag Hset].
  split; [exact (Hwifi eq_refl eq_refl) |]. split; [exact Hflag | exact Hset].
Defined.

(** ** [setCertFile] *)

(** [cert_filename_slash] at work: the name gets its slash once. *)
Lemma cert_filename_slash_witness :
  cert_filename "ca.der" = "/ca.der"%string /\
  cert_filename (cert_filename "ca.der") = cert_filename "ca.der".
Proof.
  split; [reflexivity |].
  exact (proj2 (proj2 (proj2 (cert_filename_slash "ca.der")))).
Defined.

(** [setCertFile_open_fails] at work on ESP8266 with a name that the file
    system does not hold: the result is [false] on an object without a
    certificate, and [true] on one whose type is 'file' from before. *)
Lemma setCertFile_open_fails_witness :
  setCertFile esp8266_build (Some "missing.der"%string) mb_fs_mem_storage_type_flash
    (set_clockReady true (set_mbfs (Some disk) new_esp8266)) =
  Ok false
     (set_mbfs (Some (Mock.mk_fs (Mock.files disk) None 1))
        (set_client (Some (Mock.logged (Mock.SetBufferSizes 512 512) Mock.fresh))
           (set_clockReady true (set_mbfs (Some disk) new_esp8266)))) /\
  setCertFile esp8266_build (Some "missing.der"%string) mb_fs_mem_storage_type_flash
    (set_certType esp_signer_cert_type_file
       (set_clockReady true (set_mbfs (Some disk) new_esp8266))) =
  Ok true
     (set_mbfs (Some (Mock.mk_fs (Mock.files disk) None 1))
        (set_client (Some (Mock.logged (Mock.SetBufferSizes 512 512) Mock.fresh))
           (set_certType esp_signer_cert_type_file
              (set_clockReady true (set_mbfs (Some disk) new_esp8266))))).
Proof.
  assert (Hn : 0 < strlen "missing.der") by reflexivity.
  assert (Hl : -1 <= -1) by lia.
  split.
  - exact (setCertFile_open_fails esp8266_build "missing.der"%string
             mb_fs_mem_storage_type_flash
             (set_clockReady true (set_mbfs (Some disk) new_esp8266))
             Mock.fresh disk (Mock.mk_fs (Mock.files disk) None 1) (-1)
             eq_refl eq_refl Hn eq_refl eq_refl eq_refl Hl).
  - exact (setCertFile_open_fails esp8266_build "missing.der"%string
             mb_fs_mem_storage_type_flash
             (set_certType esp_signer_cert_type_file
                (set_clockReady true (set_mbfs (Some disk) new_esp8266)))
             Mock.fresh disk (Mock.mk_fs (Mock.files disk) None 1) (-1)
             eq_refl eq_refl Hn eq_refl eq_refl eq_refl Hl).
Defined.

(** [setCertFile_installs_der] at work on ESP8266: the two bytes of the
    file become the trust anchors. *)
Lemma setCertFile_installs_der_witness :
  match setCertFile esp8266_build (Some "ca.der"%string) mb_fs_mem_storage_type_flash
          (set_clockReady true (set_mbfs (Some disk) new_esp8266)) with
  | Ok b t' =>
      b = true /\
      certType t' = esp_signer_cert_type_file /\
      option_map Mock.log (client t') =
        Some [Mock.SetTrustAnchors (X509List_der ["0"%byte; "1"%byte] 2);
              Mock.SetBufferSizes 512 512] /\
      option_map Mock.opened (mbfs t') = Some None
  | _ => False
  end.
Proof.
  assert (Hn : 0 < strlen "ca.der") by reflexivity.
  assert (Hl : 0 <= 2) by lia.
  pose (f1 := Mock.mk_fs (Mock.files disk) (Some ["0"%byte; "1"%byte]) 1).
  assert (Ho : fs_open (cert_filename "ca.der") mb_fs_mem_storage_type_flash disk =
               (2, f1)) by reflexivity.
  assert (Hr : read_file mb_fs_mem_storage_type_flash (fs_createBuffer 2 f1) 2 f1 =
               (["0"%byte; "1"%byte], Mock.mk_fs (Mock.files disk) (Some []) 3))
    by reflexivity.
  rewrite (setCertFile_installs_der esp8266_build "ca.der"%string
             mb_fs_mem_storage_type_flash
             (set_clockReady true (set_mbfs (Some disk) new_esp8266))
             Mock.fresh disk f1 _ 2 _
             eq_refl eq_refl eq_refl Hn eq_refl eq_refl Ho Hl Hr).
  repeat split.
Defined.

(** [setCertFile_esp32] at work: from flash the open file goes to
    [loadCACert]; with an undefined storage type the file stays open and
    nothing is installed. *)
Lemma setCertFile_esp32_witness :
  match setCertFile esp32_build (Some "ca.der"%string) mb_fs_mem_storage_type_flash
          (set_clockReady true (set_mbfs (Some disk) new_esp32)) with
  | Ok b t' =>
      b = true /\
      option_map Mock.log (client t') =
        Some [Mock.LoadCACert ["0"%byte; "1"%byte] 2] /\
      option_map Mock.opened (mbfs t') = Some None
  | _ => False
  end /\
  match setCertFile esp32_build (Some "ca.der"%string)
          mb_fs_mem_storage_type_undefined
          (set_clockReady true (set_mbfs (Some disk) new_esp32)) with
  | Ok b t' =>
      b = false /\
      option_map Mock.log (client t') = Some [] /\
      option_map Mock.opened (mbfs t') = Some (Some ["0"%byte; "1"%byte])
  | _ => False
  end.
Proof.
  assert (Hn : 0 < strlen "ca.der") by reflexivity.
  assert (Hl : 0 <= 2) by lia.
  pose (f1 := Mock.mk_fs (Mock.files disk) (Some ["0"%byte; "1"%byte]) 1).
  assert (Ho : forall st, fs_open (cert_filename "ca.der") st disk = (2, f1))
    by reflexivity.
  split.
  - pose proof (setCertFile_esp32 esp32_build "ca.der"%string
                  mb_fs_mem_storage_type_flash
                  (set_clockReady true (set_mbfs (Some disk) new_esp32))
                  disk f1 2 eq_refl eq_refl eq_refl Hn eq_refl (Ho _) Hl) as H.
    cbv zeta in H. destruct H as (Hflash & _).
    rewrite (Hflash eq_refl eq_refl Mock.fresh eq_refl). repeat split.
  - pose proof (setCertFile_esp32 esp32_build "ca.der"%string
                  mb_fs_mem_storage_type_undefined
                  (set_clockReady true (set_mbfs (Some disk) new_esp32))
                  disk f1 2 eq_refl eq_refl eq_refl Hn eq_refl (Ho _) Hl) as H.
    cbv zeta in H. destruct H as (_ & _ & _ & _ & Hundef).
    rewrite (Hundef eq_refl). repeat split.
Defined.

(** ** [setBufferSizes] and [ethLinkUp] *)

(** [setBufferSizes_effect] at work: on RP2040 a receive size of 70000 is
    stored as 4464 while the SSL client gets 70000; in an ESP8266 build
    that defines [ESP8266] only, the call changes nothing. *)
Lemma setBufferSizes_effect_witness :
  setBufferSizes rp2040_build false 70000 1024 new_rp2040 =
  Ok tt (set_client (Some (Mock.logged (Mock.SetBufferSizes 70000 1024) Mock.fresh))
           (set_bsslTxSize 1024 (set_bsslRxSize 4464 new_rp2040))) /\
  setBufferSizes esp8266_build false 70000 1024 new_esp8266 = Ok tt new_esp8266.
Proof.
  destruct (setBufferSizes_effect rp2040_build false 70000 1024 new_rp2040)
    as (_ & Hon).
  destruct (setBufferSizes_effect esp8266_build false 70000 1024 new_esp8266)
    as (Hoff & _).
  split.
  - destruct (Hon eq_refl (or_intror eq_refl)) as (_ & Hc).
    exact (proj1 (Hc Mock.fresh eq_refl)).
  - apply Hoff. right. split; [reflexivity | discriminate].
Defined.

